(** * Leaf-disease detection pipeline: a shallow embedding of
    [src/utils.py] and [src/main_flow.py].

    The two data transforms of [utils.py] and the five Metaflow steps of
    [main_flow.py] are written as programs of one state-and-exception
    monad over the interpreter state the Python code can reach: the
    process environment, the module global [class_mapping], the local
    files, the S3 bucket, the SageMaker endpoints, the W&B log, the flow
    object's attributes ([self.x]) and the transition [self.next] records.

    The engines the repository calls but does not contain (TensorFlow,
    KerasCV, W&B, SageMaker) are a record of functions, [libs]; every
    statement below holds for all of them.

    The state holds what the flow's own statements name: the files they
    open, the S3 objects they get and put, the endpoint they create and
    delete, the table they log.  What the engines keep for themselves is
    outside it: the checkpoint, [models/] and saved-model directories
    Keras writes while training, and the [wandb/] run directory and the
    [WANDB_SERVICE] variable of [wandb.init].  Console output ([print])
    and the placement decorators ([@batch], [@pip], [@environment]) are
    not modelled either: the steps share one file system here, while
    [@batch] gives [augment_data_train_model] a container of its own.
    The theorems on a step's files and environment are therefore about
    what that step itself reads and writes, within the step. *)

From Stdlib Require Import ZArith String Ascii List Lia DecimalString.
From Stdlib Require Import Floats.SpecFloat.
From stdpp Require Import gmap strings list fin_maps.

Local Open Scope string_scope.
Local Open Scope Z_scope.
Set Warnings "-register-all".

(** ** Python exceptions and results *)

Inductive exn : Type :=
| IndexError
| KeyError
| ValueError
| OverflowError
| TypeError
| AttributeError
| AssertionError
| StopIteration
| LibraryError (what : string).

Inductive result (A : Type) : Type :=
| Ok (a : A)
| Raise (e : exn).
Arguments Ok {A} a.
Arguments Raise {A} e.

(** ** Python numbers

    A coordinate, class id or confidence is a Python [int] or a float
    (a Python [float], or a NumPy [float32] scalar, whose values are
    binary64 values too).  Floats are IEEE-754 values as [spec_float]. *)

Inductive num : Type :=
| NInt (z : Z)
| NFloat (f : spec_float).

Definition prec64 : Z := 53.
Definition emax64 : Z := 1024.
Definition prec32 : Z := 24.
Definition emax32 : Z := 128.

(** [m * 2^e] truncated toward zero, for a positive mantissa. *)
Definition trunc_pos (m : positive) (e : Z) : Z := Z.shiftl (Zpos m) e.

(** [int(x)]: truncation toward zero; [ValueError] on NaN and
    [OverflowError] on an infinity. *)
Definition py_int (x : num) : result Z :=
  match x with
  | NInt z => Ok z
  | NFloat (S754_zero _) => Ok 0
  | NFloat (S754_finite s m e) => Ok (cond_Zopp s (trunc_pos m e))
  | NFloat S754_nan => Raise ValueError
  | NFloat (S754_infinity _) => Raise OverflowError
  end.

(** [float(x)]: the identity on a float; an [int] is rounded to the
    nearest binary64, [OverflowError] when that is out of range. *)
Definition py_float (x : num) : result spec_float :=
  match x with
  | NFloat f => Ok f
  | NInt z =>
      match binary_normalize prec64 emax64 z 0 false with
      | S754_infinity _ => Raise OverflowError
      | f => Ok f
      end
  end.

Definition float_of_Z (z : Z) : spec_float :=
  binary_normalize prec64 emax64 z 0 false.

(** [100 * x] for a float [x]: the int 100 becomes 100.0, then one
    binary64 multiplication. *)
Definition mul100 (x : spec_float) : spec_float :=
  SFmul prec64 emax64 (float_of_Z 100) x.

(** [m * 2^e] rounded to the nearest integer, ties to even. *)
Definition round_pos (m : positive) (e : Z) : Z :=
  if 0 <=? e then Z.shiftl (Zpos m) e
  else
    let d := Z.shiftl 1 (- e) in
    let q := Zpos m / d in
    let r := Zpos m mod d in
    match 2 * r ?= d with
    | Lt => q
    | Gt => q + 1
    | Eq => if Z.even q then q else q + 1
    end.

(** [round(x)] with one argument: an [int], half to even. *)
Definition py_round (x : spec_float) : result Z :=
  match x with
  | S754_zero _ => Ok 0
  | S754_finite s m e => Ok (cond_Zopp s (round_pos m e))
  | S754_nan => Raise ValueError
  | S754_infinity _ => Raise OverflowError
  end.

Definition is_finite (x : spec_float) : bool :=
  match x with
  | S754_zero _ | S754_finite _ _ _ => true
  | _ => false
  end.

(** [str(n)] of an [int]. *)
Definition str_of_Z (z : Z) : string := NilZero.string_of_int (Z.to_int z).

(** [l[i]] for [i >= 0]. *)
Definition index {A} (l : list A) (i : nat) : result A :=
  match l !! i with
  | Some a => Ok a
  | None => Raise IndexError
  end.

(** ** [utils.class_mapping] *)

Definition class_mapping_items : list (Z * string) :=
  [ (1, "Apple Scab Leaf"); (2, "Apple leaf"); (3, "Apple rust leaf");
    (4, "Bell_pepper leaf"); (5, "Bell_pepper leaf spot");
    (6, "Blueberry leaf"); (7, "Cherry leaf"); (8, "Corn Gray leaf spot");
    (9, "Corn leaf blight"); (10, "Corn rust leaf"); (11, "Peach leaf");
    (12, "Potato leaf"); (13, "Potato leaf early blight");
    (14, "Potato leaf late blight"); (15, "Raspberry leaf");
    (16, "Soyabean leaf"); (17, "Soybean leaf");
    (18, "Squash Powdery mildew leaf"); (19, "Strawberry leaf");
    (20, "Tomato Early blight leaf"); (21, "Tomato Septoria leaf spot");
    (22, "Tomato leaf"); (23, "Tomato leaf bacterial spot");
    (24, "Tomato leaf late blight"); (25, "Tomato leaf mosaic virus");
    (26, "Tomato leaf yellow virus"); (27, "Tomato mold leaf");
    (28, "Tomato two spotted spider mites leaf"); (29, "grape leaf");
    (30, "grape leaf black rot") ].

Definition class_mapping : gmap Z string := list_to_map class_mapping_items.

(** ** Dynamic Python values

    What a flow attribute, a W&B config, a model's output or a JSON
    response holds. A dict with string keys is an association list. *)

Inductive pyval : Type :=
| PNone
| PBool (b : bool)
| PInt (z : Z)
| PFloat (f : spec_float)
| PStr (s : string)
| PList (l : list pyval)
| PDict (d : list (string * pyval)).

Fixpoint assoc {A} (k : string) (d : list (string * A)) : option A :=
  match d with
  | [] => None
  | (k', v) :: d' => if String.eqb k k' then Some v else assoc k d'
  end.

(** [d[k] = v] on a dict: the key keeps its place, a new key goes last. *)
Fixpoint assoc_set {A} (k : string) (v : A) (d : list (string * A))
  : list (string * A) :=
  match d with
  | [] => [(k, v)]
  | (k', v') :: d' =>
      if String.eqb k k' then (k, v) :: d' else (k', v') :: assoc_set k v d'
  end.

(** [v[k]] for a string key. *)
Definition getitem (v : pyval) (k : string) : result pyval :=
  match v with
  | PDict d => match assoc k d with Some x => Ok x | None => Raise KeyError end
  | _ => Raise TypeError
  end.

(** [v[i]] for an index [i >= 0]. *)
Definition getidx (v : pyval) (i : nat) : result pyval :=
  match v with
  | PList l => index l i
  | _ => Raise TypeError
  end.

(** [v[k] = x] for a string key: the dict with the entry set. *)
Definition setitem (v : pyval) (k : string) (x : pyval) : result pyval :=
  match v with
  | PDict d => Ok (PDict (assoc_set k x d))
  | _ => Raise TypeError
  end.

(** Truth value of an object in an [if]. *)
Definition truthy (v : pyval) : bool :=
  match v with
  | PNone => false
  | PBool b => b
  | PInt z => negb (z =? 0)
  | PFloat (S754_zero _) => false
  | PFloat _ => true
  | PStr s => negb (String.eqb s "")
  | PList l => match l with [] => false | _ => true end
  | PDict d => match d with [] => false | _ => true end
  end.

Definition as_num (v : pyval) : result num :=
  match v with
  | PInt z => Ok (NInt z)
  | PFloat f => Ok (NFloat f)
  | _ => Raise TypeError
  end.

(** ** The flow's stages and the interpreter state *)

Inductive stage : Type :=
| S_start
| S_augment_data_train_model
| S_evaluate_model
| S_deploy
| S_end.

#[global] Instance stage_eq_dec : EqDecision stage.
Proof. solve_decision. Defined.

(** WandB's bounding-box dictionaries: the keys are fixed, so a dict is
    a record of its values. *)
Record position : Type := {
  minX : Z;
  maxX : Z;
  minY : Z;
  maxY : Z
}.

Record box_data : Type := {
  box_position : position;
  class_id : Z;
  box_caption : string;
  domain : string
}.

(** A row of the W&B table of [evaluate_model]: the boxes of the ground
    truth image, and of the predicted image ([None]: an image logged
    without boxes). *)
Record table_row : Type := {
  ground_truth : list box_data;
  predictions : option (list box_data)
}.

Record state : Type := {
  environ : gmap string string;        (* os.environ *)
  utils_class_mapping : gmap Z string; (* the global of utils.py *)
  files : gmap string string;          (* local files, by path *)
  s3 : gmap string string;             (* S3 objects, by url *)
  endpoints : gmap string string;      (* live endpoints: name to model data *)
  now_ms : Z;                          (* int(round(time.time() * 1000)) *)
  wandb_log : list (string * list table_row);
  self : gmap string pyval;            (* the flow object's attributes *)
  transition : option stage            (* what self.next recorded *)
}.

Definition set_files (f : gmap string string → gmap string string) (σ : state) : state :=
  {| environ := environ σ; utils_class_mapping := utils_class_mapping σ;
     files := f (files σ); s3 := s3 σ; endpoints := endpoints σ;
     now_ms := now_ms σ; wandb_log := wandb_log σ; self := self σ;
     transition := transition σ |}.

Definition set_s3 (f : gmap string string → gmap string string) (σ : state) : state :=
  {| environ := environ σ; utils_class_mapping := utils_class_mapping σ;
     files := files σ; s3 := f (s3 σ); endpoints := endpoints σ;
     now_ms := now_ms σ; wandb_log := wandb_log σ; self := self σ;
     transition := transition σ |}.

Definition set_endpoints (f : gmap string string → gmap string string) (σ : state) : state :=
  {| environ := environ σ; utils_class_mapping := utils_class_mapping σ;
     files := files σ; s3 := s3 σ; endpoints := f (endpoints σ);
     now_ms := now_ms σ; wandb_log := wandb_log σ; self := self σ;
     transition := transition σ |}.

Definition set_wandb_log (f : list (string * list table_row) → list (string * list table_row))
  (σ : state) : state :=
  {| environ := environ σ; utils_class_mapping := utils_class_mapping σ;
     files := files σ; s3 := s3 σ; endpoints := endpoints σ;
     now_ms := now_ms σ; wandb_log := f (wandb_log σ); self := self σ;
     transition := transition σ |}.

Definition set_self (f : gmap string pyval → gmap string pyval) (σ : state) : state :=
  {| environ := environ σ; utils_class_mapping := utils_class_mapping σ;
     files := files σ; s3 := s3 σ; endpoints := endpoints σ;
     now_ms := now_ms σ; wandb_log := wandb_log σ; self := f (self σ);
     transition := transition σ |}.

Definition set_transition (t : option stage) (σ : state) : state :=
  {| environ := environ σ; utils_class_mapping := utils_class_mapping σ;
     files := files σ; s3 := s3 σ; endpoints := endpoints σ;
     now_ms := now_ms σ; wandb_log := wandb_log σ; self := self σ;
     transition := t |}.

(** ** The monad: state, and exceptions that keep the state reached *)

Definition M (A : Type) : Type := state → result A * state.

Definition ret {A} (a : A) : M A := fun σ => (Ok a, σ).

Definition bind {A B} (m : M A) (k : A → M B) : M B :=
  fun σ => match m σ with
           | (Ok a, σ') => k a σ'
           | (Raise e, σ') => (Raise e, σ')
           end.

Definition raise {A} (e : exn) : M A := fun σ => (Raise e, σ).

Definition lift {A} (r : result A) : M A := fun σ => (r, σ).

Definition gets {A} (f : state → A) : M A := fun σ => (Ok (f σ), σ).

Definition modify (f : state → state) : M unit := fun σ => (Ok tt, f σ).

Declare Scope py_scope.
Delimit Scope py_scope with py.
Notation "'let*' x ':=' m 'in' k" := (bind m (fun x => k))
  (at level 10, x name, m at level 100, k at level 200) : py_scope.
Notation "m ;; k" := (bind m (fun _ => k))
  (at level 100, k at level 200, right associativity) : py_scope.
Local Open Scope py_scope.

(** [self.name] and [self.name = v] *)
Definition getattr (name : string) : M pyval :=
  fun σ => match self σ !! name with
           | Some v => (Ok v, σ)
           | None => (Raise AttributeError, σ)
           end.

Definition setattr (name : string) (v : pyval) : M unit :=
  modify (set_self (insert name v)).

(** [os.environ[name]] and [os.getenv(name)] *)
Definition os_environ (name : string) : M string :=
  fun σ => match environ σ !! name with
           | Some v => (Ok v, σ)
           | None => (Raise KeyError, σ)
           end.

Definition os_getenv (name : string) : M (option string) :=
  gets (fun σ => environ σ !! name).

(** [assert v] for a string [v] *)
Definition assert_str (v : string) : M unit :=
  if String.eqb v "" then raise AssertionError else ret tt.

(** ** [utils.py]: [convert_format_keras_to_wandb] *)

(** [class_mapping[class_id]]: the module's global, read at the call. *)
Definition class_mapping_getitem (cid : Z) : M string :=
  fun σ => match utils_class_mapping σ !! cid with
           | Some name => (Ok name, σ)
           | None => (Raise KeyError, σ)
           end.

(** [if confidence_list:] is taken for a list that is not empty. *)
Definition confidence_given (confidence_list : option (list num)) : bool :=
  match confidence_list with
  | Some (_ :: _) => true
  | _ => false
  end.

(** [f"{name} ({confidence}%)"] *)
Definition caption_with (name : string) (confidence : Z) : string :=
  (name ++ " (" ++ str_of_Z confidence ++ "%)")%string.

(** The body of the loop, for the box at index [b_i]. *)
Definition convert_box (b_i : nat) (box : list num) (classes_list : list num)
  (confidence_list : option (list num)) : M box_data :=
  let* b0 := lift (index box 0) in
  let* x_min := lift (py_int b0) in
  let* b2 := lift (index box 2) in
  let* x_max := lift (py_int b2) in
  let* b1 := lift (index box 1) in
  let* y_min := lift (py_int b1) in
  let* b3 := lift (index box 3) in
  let* y_max := lift (py_int b3) in
  let* c := lift (index classes_list b_i) in
  let* cid := lift (py_int c) in
  let pos := {| minX := x_min; maxX := x_max; minY := y_min; maxY := y_max |} in
  if confidence_given confidence_list then
    let* cf := lift (index (default [] confidence_list) b_i) in
    let* f := lift (py_float cf) in
    let* confidence := lift (py_round (mul100 f)) in
    let* name := class_mapping_getitem cid in
    ret {| box_position := pos; class_id := cid;
           box_caption := caption_with name confidence; domain := "pixel" |}
  else
    let* name := class_mapping_getitem cid in
    ret {| box_position := pos; class_id := cid;
           box_caption := name; domain := "pixel" |}.

(** [for b_i, box in enumerate(box_list): ...; all_boxes.append(box_data)] *)
Fixpoint convert_loop (b_i : nat) (box_list : list (list num))
  (classes_list : list num) (confidence_list : option (list num))
  (all_boxes : list box_data) : M (list box_data) :=
  match box_list with
  | [] => ret all_boxes
  | box :: rest =>
      let* box_data := convert_box b_i box classes_list confidence_list in
      convert_loop (S b_i) rest classes_list confidence_list
        (all_boxes ++ [box_data])
  end.

Definition convert_format_keras_to_wandb (box_list : list (list num))
  (classes_list : list num) (confidence_list : option (list num))
  : M (list box_data) :=
  convert_loop 0 box_list classes_list confidence_list [].

(** ** TensorFlow values of [parse_tfrecord_fn] *)

Inductive dtype : Type := tf_string | tf_int64 | tf_float32.

Inductive feature : Type :=
| FixedLenFeature (shape : list Z) (d : dtype)
| VarLenFeature (d : dtype).

(** A parsed feature. A [VarLenFeature] parses to a sparse vector whose
    values stand at the indices 0, 1, ...: it is the list of its values. *)
Inductive tensor : Type :=
| TString (s : string)
| TInt64 (z : Z)
| TSparseFloat (values : list spec_float)
| TSparseInt64 (values : list Z)
| TFloat (values : list spec_float)
| TInt64s (values : list Z).

(** A decoded image: a uint8 tensor of shape [height, width, channels]. *)
Record image : Type := {
  img_height : Z;
  img_width : Z;
  img_channels : Z;
  img_pixels : list Z
}.

Record bounding_boxes_dict : Type := {
  classes : list Z;
  boxes : list (list spec_float)
}.

Record image_dataset : Type := {
  images : image;
  bounding_boxes : bounding_boxes_dict
}.

(** ** The engines outside the repository

    Each field stands for library calls of the source, named where it is
    used. They are functions of their arguments; a failure inside one
    (a malformed record, a failed training, a refused request) is a
    [Raise]. *)
Record libs : Type := {
  (* tf.io.parse_single_example(example, feature_description) *)
  tf_parse_single_example :
    string → list (string * feature) → result (gmap string tensor);
  (* tf.image.decode_jpeg(contents, channels) *)
  tf_decode_jpeg : string → Z → result image;
  (* tf.data.TFRecordDataset(file): the records of the file's content *)
  tf_records : string → result (list string);
  (* x * y on two float32 scalars, as TensorFlow's kernel computes it
     (its rounding, and what it does with subnormal numbers) *)
  tf_multiply : spec_float → spec_float → spec_float;
  (* the augmenter, Resizing, dict_to_tuple, create_model, model.fit with
     its callbacks, create_model and load_weights of the best checkpoint,
     model.get_weights(): config, testing, training and validation
     examples to the weights *)
  keras_fit : pyval → bool → list image_dataset → list image_dataset → result pyval;
  (* create_model(config) and model.to_json() *)
  keras_to_json : pyval → result string;
  (* tf.saved_model.save with serving_fn, then tarfile: the tar.gz bytes *)
  saved_model_targz : pyval → pyval → result string;
  (* create_model, set_weights, the prediction decoder and model.predict
     on the image with a batch dimension added: the y_pred dict *)
  keras_predict : pyval → pyval → image → result pyval;
  (* keras_cv.bounding_box.to_ragged *)
  kcv_to_ragged : pyval → result pyval;
  (* Resizing and dict_to_tuple on one example, the image of the tuple *)
  kcv_resize : pyval → image_dataset → result image;
  (* tf.expand_dims(image, axis=0) as the flow stores it *)
  image_value : image → pyval;
  (* tf.convert_to_tensor(v, dtype=tf.float32) *)
  tf_convert_to_tensor : pyval → result pyval;
  (* wandb.init: the id of the run started (or resumed, when one is given);
     the run directory and the service it starts are W&B's own *)
  wandb_init : pyval → option string → result string;
  (* S3(run=self): the url of a key under the run's prefix *)
  s3_run_url : string → string;
  (* the endpoint's TensorFlow Serving container on a request: the model
     data and the image to the JSON response *)
  sagemaker_invoke : string → image → result pyval
}.

(** ** [utils.py]: [parse_tfrecord_fn] *)

Definition feature_description : list (string * feature) :=
  [ ("image/encoded", FixedLenFeature [] tf_string);
    ("image/height", FixedLenFeature [] tf_int64);
    ("image/width", FixedLenFeature [] tf_int64);
    ("image/object/bbox/xmin", VarLenFeature tf_float32);
    ("image/object/bbox/xmax", VarLenFeature tf_float32);
    ("image/object/bbox/ymin", VarLenFeature tf_float32);
    ("image/object/bbox/ymax", VarLenFeature tf_float32);
    ("image/object/class/label", VarLenFeature tf_int64) ].

(** [parsed_example[key]] *)
Definition feature_getitem (parsed : gmap string tensor) (key : string)
  : result tensor :=
  match parsed !! key with
  | Some t => Ok t
  | None => Raise KeyError
  end.

(** [tf.sparse.to_dense] *)
Definition sparse_to_dense (t : tensor) : result tensor :=
  match t with
  | TSparseFloat v => Ok (TFloat v)
  | TSparseInt64 v => Ok (TInt64s v)
  | _ => Raise TypeError
  end.

Definition encoded_bytes (t : tensor) : result string :=
  match t with TString s => Ok s | _ => Raise TypeError end.

Definition float_values (t : tensor) : result (list spec_float) :=
  match t with TFloat v => Ok v | _ => Raise TypeError end.

Definition int_values (t : tensor) : result (list Z) :=
  match t with TInt64s v => Ok v | _ => Raise TypeError end.

(** [tf.stack([a, b, c, d], axis=-1)] of four vectors: the rows
    [a[i], b[i], c[i], d[i]]; the vectors must have one length. *)
Fixpoint stack4 (a b c d : list spec_float) : result (list (list spec_float)) :=
  match a, b, c, d with
  | [], [], [], [] => Ok []
  | x :: a', y :: b', z :: c', w :: d' =>
      match stack4 a' b' c' d' with
      | Ok rows => Ok ([x; y; z; w] :: rows)
      | Raise e => Raise e
      end
  | _, _, _, _ => Raise (LibraryError "InvalidArgumentError")
  end.

(** An image dimension as a float32, and the IEEE-754 float32 product
    (the product the example engines compute with; the one of the source
    is TensorFlow's, [tf_multiply]). *)
Definition float32_of_Z (z : Z) : spec_float :=
  binary_normalize prec32 emax32 z 0 false.
Definition mul32 (x y : spec_float) : spec_float := SFmul prec32 emax32 x y.

(** [keras_cv.bounding_box.convert_format(boxes, source='rel_xyxy',
    target='xyxy', images=img)], as KerasCV defines it: left and right
    times the image's width, top and bottom times its height, the image's
    shape cast to the boxes' dtype. *)
Definition rel_xyxy_to_xyxy (L : libs) (img : image) (box : list spec_float)
  : result (list spec_float) :=
  match box with
  | [x_left; y_top; x_right; y_bottom] =>
      Ok [ tf_multiply L x_left (float32_of_Z (img_width img));
           tf_multiply L y_top (float32_of_Z (img_height img));
           tf_multiply L x_right (float32_of_Z (img_width img));
           tf_multiply L y_bottom (float32_of_Z (img_height img)) ]
  | _ => Raise ValueError
  end.

Fixpoint traverse {A B} (f : A → result B) (l : list A) : result (list B) :=
  match l with
  | [] => Ok []
  | x :: l' =>
      match f x with
      | Ok y => match traverse f l' with
                | Ok ys => Ok (y :: ys)
                | Raise e => Raise e
                end
      | Raise e => Raise e
      end
  end.

Definition convert_format (L : libs) (rel_boxes : list (list spec_float))
    (img : image) : result (list (list spec_float)) :=
  traverse (rel_xyxy_to_xyxy L img) rel_boxes.

Definition parse_tfrecord_fn (L : libs) (example : string) : M image_dataset :=
  let* parsed_example :=
    lift (tf_parse_single_example L example feature_description) in
  let* encoded := lift (feature_getitem parsed_example "image/encoded") in
  let* encoded := lift (encoded_bytes encoded) in
  let* img := lift (tf_decode_jpeg L encoded 3) in
  let* xmin := lift (feature_getitem parsed_example "image/object/bbox/xmin") in
  let* xmin := lift (sparse_to_dense xmin) in
  let* xmax := lift (feature_getitem parsed_example "image/object/bbox/xmax") in
  let* xmax := lift (sparse_to_dense xmax) in
  let* ymin := lift (feature_getitem parsed_example "image/object/bbox/ymin") in
  let* ymin := lift (sparse_to_dense ymin) in
  let* ymax := lift (feature_getitem parsed_example "image/object/bbox/ymax") in
  let* ymax := lift (sparse_to_dense ymax) in
  let* labels := lift (feature_getitem parsed_example "image/object/class/label") in
  let* labels := lift (sparse_to_dense labels) in
  let* xmin := lift (float_values xmin) in
  let* ymin := lift (float_values ymin) in
  let* xmax := lift (float_values xmax) in
  let* ymax := lift (float_values ymax) in
  let* rel_boxes := lift (stack4 xmin ymin xmax ymax) in
  let* boxes := lift (convert_format L rel_boxes img) in
  let* labels := lift (int_values labels) in
  ret {| images := img;
         bounding_boxes := {| classes := labels; boxes := boxes |} |}.

(** ** [main_flow.py]: helpers of the steps *)

Record params : Type := {
  TESTING : bool;
  SAGEMAKER_INSTANCE : string
}.

Definition default_params : params :=
  {| TESTING := true; SAGEMAKER_INSTANCE := "ml.t2.medium" |}.

(** The float a decimal literal [a/b] denotes. *)
Definition dec (a b : Z) : spec_float :=
  SFdiv prec64 emax64 (float_of_Z a) (float_of_Z b).

Definition as_str (v : pyval) : result string :=
  match v with PStr s => Ok s | _ => Raise TypeError end.

Definition as_int (v : pyval) : result Z :=
  match v with PInt z => Ok z | _ => Raise TypeError end.

Definition as_list (v : pyval) : result (list pyval) :=
  match v with PList l => Ok l | _ => Raise TypeError end.

Definition as_num_list (v : pyval) : result (list num) :=
  match as_list v with
  | Ok l => traverse as_num l
  | Raise e => Raise e
  end.

Definition as_box_list (v : pyval) : result (list (list num)) :=
  match as_list v with
  | Ok l => traverse as_num_list l
  | Raise e => Raise e
  end.

(** [conf != -1] *)
Definition is_minus_one (v : pyval) : bool :=
  match v with
  | PInt z => z =? -1
  | PFloat f => SFeqb f (float_of_Z (-1))
  | _ => false
  end.

(** [self.next(self.s)] *)
Definition self_next (s : stage) : M unit := modify (set_transition (Some s)).

Definition read_file (path : string) : M string :=
  fun σ => match files σ !! path with
           | Some content => (Ok content, σ)
           | None => (Raise (LibraryError "NotFoundError"), σ)
           end.

Definition write_file (path content : string) : M unit :=
  modify (set_files (insert path content)).

(** [with S3() as s3: s3.get(url).blob] *)
Definition s3_get (url : string) : M string :=
  fun σ => match s3 σ !! url with
           | Some blob => (Ok blob, σ)
           | None => (Raise (LibraryError "MetaflowS3NotFound"), σ)
           end.

(** [with S3(run=self) as s3: s3.put(key, data)]: the url it is stored at *)
Definition s3_put (L : libs) (key data : string) : M string :=
  let url := s3_run_url L key in
  modify (set_s3 (insert url data)) ;; ret url.

(** The nested function of [augment_data_train_model]. *)
Definition download_from_s3 (s3_path local_path : string) : M unit :=
  let* s3_blob := s3_get s3_path in
  write_file local_path s3_blob.

(** [TensorFlowModel(model_data, ...).deploy(endpoint_name=name)]:
    SageMaker refuses a name in use and model data it cannot read. *)
Definition create_endpoint (name model_data : string) : M unit :=
  fun σ => match s3 σ !! model_data, endpoints σ !! name with
           | None, _ => (Raise (LibraryError "ModelDataNotFound"), σ)
           | Some _, Some _ => (Raise (LibraryError "EndpointExists"), σ)
           | Some _, None =>
               (Ok tt, set_endpoints (insert name model_data) σ)
           end.

(** [predictor.predict(input)] *)
Definition endpoint_invoke (L : libs) (name : string) (img : image) : M pyval :=
  fun σ => match endpoints σ !! name with
           | None => (Raise (LibraryError "EndpointNotFound"), σ)
           | Some model_data =>
               match s3 σ !! model_data with
               | None => (Raise (LibraryError "ModelDataNotFound"), σ)
               | Some blob => (sagemaker_invoke L blob img, σ)
               end
           end.

(** [predictor.delete_endpoint()] *)
Definition delete_endpoint (name : string) : M unit :=
  fun σ => match endpoints σ !! name with
           | None => (Raise (LibraryError "EndpointNotFound"), σ)
           | Some _ => (Ok tt, set_endpoints (delete name) σ)
           end.

(** [[f(x) for x in xs]], in order. *)
Fixpoint map_m {A B} (f : A → M B) (xs : list A) : M (list B) :=
  match xs with
  | [] => ret []
  | x :: xs' =>
      let* y := f x in
      let* ys := map_m f xs' in
      ret (y :: ys)
  end.

(** ** [main_flow.start] *)

Definition start : M unit :=
  let* v := os_environ "WANDB_API_KEY" in assert_str v ;;
  let* v := os_environ "WANDB_ENTITY" in assert_str v ;;
  let* v := os_environ "WANDB_PROJECT" in assert_str v ;;
  let* v := os_environ "S3_BUCKET_ADDRESS" in assert_str v ;;
  let* v := os_environ "KAGGLE_USERNAME" in assert_str v ;;
  let* v := os_environ "KAGGLE_KEY" in assert_str v ;;
  let* v := os_environ "IAM_ROLE_SAGEMAKER" in assert_str v ;;
  self_next S_augment_data_train_model.

(** ** [main_flow.augment_data_train_model] *)

Definition initial_config : list (string * pyval) :=
  [ ("base_lr", PFloat (dec 1 10000));
    ("loss", PStr "sparse_categorical_crossentropy");
    ("epoch", PInt 40);
    ("batch_size", PInt 32);
    ("classification_loss", PStr "focal");
    ("box_loss", PStr "smoothl1");
    ("num_examples", PInt 6);
    ("bbox_format", PStr "xyxy");
    ("img_size", PInt 416);
    ("patience", PInt 6);
    ("iou_threshold", PFloat (dec 2 10));
    ("confidence_threshold", PFloat (dec 6 10)) ].

(** [TFRecordDataset(file).map(parse_tfrecord_fn).ragged_batch(batch_size)],
    and [.take(1)] of it under [TESTING]: the examples the training reads. *)
Definition load_dataset (L : libs) (file : string) (batch_size : Z)
  (testing : bool) : M (list image_dataset) :=
  let* content := read_file file in
  let* records := lift (tf_records L content) in
  map_m (parse_tfrecord_fn L)
    (if testing then take (Z.to_nat batch_size) records else records).

Definition augment_data_train_model (L : libs) (P : params) : M unit :=
  setattr "config" (PDict initial_config) ;;
  let* bucket := os_getenv "S3_BUCKET_ADDRESS" in
  let* bucket := lift (match bucket with
                       | Some b => Ok b
                       | None => Raise TypeError
                       end) in
  let s3_base_path := ("s3://" ++ bucket ++ "/raw_data/")%string in
  setattr "train_tfrecord_file" (PStr "train_leaves.tfrecord") ;;
  setattr "val_tfrecord_file" (PStr "val_test_leaves.tfrecord") ;;
  let* train_file := getattr "train_tfrecord_file" in
  let* train_file := lift (as_str train_file) in
  download_from_s3 (s3_base_path ++ "leaves.tfrecord")%string train_file ;;
  let* val_file := getattr "val_tfrecord_file" in
  let* val_file := lift (as_str val_file) in
  download_from_s3 (s3_base_path ++ "test_leaves.tfrecord")%string val_file ;;
  let* cfg := getattr "config" in
  let* batch_size := lift (getitem cfg "batch_size") in
  let* batch_size := lift (as_int batch_size) in
  (if TESTING P then
     let* cfg := lift (setitem cfg "epoch" (PInt 2)) in setattr "config" cfg
   else ret tt) ;;
  let* cfg := getattr "config" in
  let* run_id := lift (wandb_init L cfg None) in
  let config := cfg in
  setattr "run_id" (PStr run_id) ;;
  let* train_dataset := load_dataset L train_file batch_size (TESTING P) in
  let* val_dataset := load_dataset L val_file batch_size (TESTING P) in
  let* weights := lift (keras_fit L config (TESTING P) train_dataset val_dataset) in
  let* json := lift (keras_to_json L config) in
  setattr "model" (PDict [("model", PStr json); ("model_weights", weights)]) ;;
  (* f"model-{config.base_lr}.tar.gz", base_lr being 0.0001 *)
  let local_tar_name := "model-0.0001.tar.gz" in
  let* data := lift (saved_model_targz L config weights) in
  write_file local_tar_name data ;;
  let* data := read_file local_tar_name in
  let* url := s3_put L local_tar_name data in
  setattr "s3_path" (PStr url) ;;
  self_next S_evaluate_model.

(** ** [main_flow.evaluate_model] *)

(** The body of [for example in val_dataset.take(config.num_examples)]:
    the row it adds to the table. *)
Definition evaluate_example (L : libs) (config weights : pyval)
  (record : string) : M table_row :=
  let* example := parse_tfrecord_fn L record in
  let img := images example in
  let gt_boxes := map (map NFloat) (boxes (bounding_boxes example)) in
  let gt_classes := map NInt (classes (bounding_boxes example)) in
  let* all_boxes := convert_format_keras_to_wandb gt_boxes gt_classes None in
  setattr "image" (image_value L img) ;;
  let* y_pred := lift (keras_predict L config weights img) in
  let* confidence := lift (getitem y_pred "confidence") in
  let* confidence := lift (getidx confidence 0) in
  let* confidence := lift (as_list confidence) in
  let confidence := filter (fun conf => is_minus_one conf = false) confidence in
  setattr "confidence" (PList confidence) ;;
  let* y_pred := lift (kcv_to_ragged L y_pred) in
  setattr "y_pred" y_pred ;;
  let* pred_boxes := lift (getitem y_pred "boxes") in
  setattr "boxes" pred_boxes ;;
  let* pred_classes := lift (getitem y_pred "classes") in
  setattr "classes" pred_classes ;;
  setattr "box_list" pred_boxes ;;
  setattr "classes_list" pred_classes ;;
  let* box_list := lift (getidx pred_boxes 0) in
  setattr "box_list" box_list ;;
  let* classes_list := lift (getidx pred_classes 0) in
  setattr "classes_list" classes_list ;;
  if negb (truthy box_list) then
    ret {| ground_truth := all_boxes; predictions := None |}
  else
    let* box_list := lift (as_box_list box_list) in
    let* classes_list := lift (as_num_list classes_list) in
    let* confidence_list := lift (as_num_list (PList confidence)) in
    let* all_boxes' :=
      convert_format_keras_to_wandb box_list classes_list (Some confidence_list) in
    ret {| ground_truth := all_boxes; predictions := Some all_boxes' |}.

Definition evaluate_model (L : libs) : M unit :=
  let* cfg := getattr "config" in
  let* run_id := getattr "run_id" in
  let* run_id := lift (as_str run_id) in
  let* _ := lift (wandb_init L cfg (Some run_id)) in
  let config := cfg in
  let* val_file := getattr "val_tfrecord_file" in
  let* val_file := lift (as_str val_file) in
  let* model := getattr "model" in
  let* weights := lift (getitem model "model_weights") in
  let* cfg := getattr "config" in
  let* _ := lift (getitem cfg "bbox_format") in
  let* _ := lift (getitem cfg "iou_threshold") in
  let* _ := lift (getitem cfg "confidence_threshold") in
  let* num_examples := lift (getitem config "num_examples") in
  let* num_examples := lift (as_int num_examples) in
  let* content := read_file val_file in
  let* records := lift (tf_records L content) in
  let* table :=
    map_m (evaluate_example L config weights)
      (take (Z.to_nat num_examples) records) in
  modify (set_wandb_log (fun log => (log ++ [("Plant Disease Predictions", table)])%list)) ;;
  self_next S_deploy.

(** ** [main_flow.deploy] *)

(** [f'detection-{int(round(time.time() * 1000))}-endpoint'] *)
Definition endpoint_name (ms : Z) : string :=
  ("detection-" ++ str_of_Z ms ++ "-endpoint")%string.

(** Lines 369 to 413 of [deploy]: a sample image is sent to the endpoint
    and the response is kept in the flow's attributes. *)
Definition deploy_test_request (L : libs) (ENDPOINT_NAME : string) : M unit :=
  let* train_file := getattr "train_tfrecord_file" in
  let* train_file := lift (as_str train_file) in
  let* cfg := getattr "config" in
  let* _ := lift (getitem cfg "img_size") in
  let* _ := lift (getitem cfg "bbox_format") in
  let* content := read_file train_file in
  let* records := lift (tf_records L content) in
  let* record := lift (match records with
                       | r :: _ => Ok r
                       | [] => Raise StopIteration
                       end) in
  let* example := parse_tfrecord_fn L record in
  let* img := lift (kcv_resize L cfg example) in
  let* result := endpoint_invoke L ENDPOINT_NAME img in
  let* predictions := lift (getitem result "predictions") in
  let* result0 := lift (getidx predictions 0) in
  setattr "result" result0 ;;
  let* res_boxes := lift (getitem result0 "boxes") in
  let* res_classes := lift (getitem result0 "classes") in
  setattr "boxes" res_boxes ;;
  setattr "classes" res_classes ;;
  let* boxes_tensor := lift (tf_convert_to_tensor L res_boxes) in
  let* classes_tensor := lift (tf_convert_to_tensor L res_classes) in
  setattr "boxes_tensor" boxes_tensor ;;
  setattr "classes_tensor" classes_tensor ;;
  let tensor_dict := PDict [("boxes", boxes_tensor); ("classes", classes_tensor)] in
  setattr "tensor_dict" tensor_dict ;;
  let* y_pred := lift (kcv_to_ragged L tensor_dict) in
  setattr "y_pred" y_pred ;;
  let* rag_boxes := lift (getitem y_pred "boxes") in
  let* rag_classes := lift (getitem y_pred "classes") in
  setattr "boxes" rag_boxes ;;
  setattr "classes" rag_classes ;;
  setattr "box_list" rag_boxes ;;
  setattr "classes_list" rag_classes ;;
  if negb (truthy rag_boxes) then ret tt
  else
    let* box0 := lift (getidx rag_boxes 0) in
    let* class0 := lift (getidx rag_classes 0) in
    setattr "box_list" box0 ;;
    setattr "classes_list" class0.

Definition deploy (L : libs) (P : params) : M unit :=
  let* ms := gets now_ms in
  let ENDPOINT_NAME := endpoint_name ms in
  let* s3_path := getattr "s3_path" in
  let* s3_path := lift (as_str s3_path) in
  let* _ := os_environ "IAM_ROLE_SAGEMAKER" in
  create_endpoint ENDPOINT_NAME s3_path ;;
  deploy_test_request L ENDPOINT_NAME ;;
  delete_endpoint ENDPOINT_NAME ;;
  self_next S_end.

(** ** [main_flow.end] *)

Definition end_step : M unit := ret tt.

(** ** The run: Metaflow executes a step and follows [self.next] *)

Definition step_body (L : libs) (P : params) (s : stage) : M unit :=
  match s with
  | S_start => start
  | S_augment_data_train_model => augment_data_train_model L P
  | S_evaluate_model => evaluate_model L
  | S_deploy => deploy L P
  | S_end => end_step
  end.

(** One task: the step's function, then the transition it recorded. *)
Definition run_step (L : libs) (P : params) (s : stage) : M (option stage) :=
  modify (set_transition None) ;;
  step_body L P s ;;
  gets transition.

Inductive outcome : Type :=
| Finished
| Failed (s : stage) (e : exn)
| OutOfFuel.

(** The run from stage [s]: the stages executed, in order, how the run
    ended, and the state it left. *)
Fixpoint run_from (L : libs) (P : params) (fuel : nat) (s : stage) (σ : state)
  : list stage * outcome * state :=
  match fuel with
  | O => ([], OutOfFuel, σ)
  | S fuel' =>
      match run_step L P s σ with
      | (Raise e, σ') => ([s], Failed s e, σ')
      | (Ok None, σ') => ([s], Finished, σ')
      | (Ok (Some s'), σ') =>
          let '(trace, o, σ'') := run_from L P fuel' s' σ' in
          (s :: trace, o, σ'')
      end
  end.

Definition main_flow (L : libs) (P : params) (fuel : nat) (σ : state)
  : list stage * outcome * state :=
  run_from L P fuel S_start σ.

(** The order the spec gives. *)
Definition pipeline : list stage :=
  [S_start; S_augment_data_train_model; S_evaluate_model; S_deploy; S_end].

Definition successor (s : stage) : option stage :=
  match s with
  | S_start => Some S_augment_data_train_model
  | S_augment_data_train_model => Some S_evaluate_model
  | S_evaluate_model => Some S_deploy
  | S_deploy => Some S_end
  | S_end => None
  end.

(** ** A small world to run the flow in

    One record per file, one leaf of class 3 in a 416 x 416 image, a
    model that finds it with confidence 0.85. *)

Definition demo_box : pyval :=
  PList [PFloat (float_of_Z 104); PFloat (float_of_Z 104);
         PFloat (float_of_Z 312); PFloat (float_of_Z 312)].

Definition demo_padding_box : pyval :=
  PList [PFloat (float_of_Z (-1)); PFloat (float_of_Z (-1));
         PFloat (float_of_Z (-1)); PFloat (float_of_Z (-1))].

Definition demo_parsed : gmap string tensor :=
  list_to_map
    [ ("image/encoded", TString "jpeg");
      ("image/height", TInt64 416);
      ("image/width", TInt64 416);
      ("image/object/bbox/xmin", TSparseFloat [dec 1 4]);
      ("image/object/bbox/xmax", TSparseFloat [dec 3 4]);
      ("image/object/bbox/ymin", TSparseFloat [dec 1 4]);
      ("image/object/bbox/ymax", TSparseFloat [dec 3 4]);
      ("image/object/class/label", TSparseInt64 [3]) ].

Definition demo_image : image :=
  {| img_height := 416; img_width := 416; img_channels := 3; img_pixels := [] |}.

Definition demo_libs : libs :=
  {| tf_parse_single_example := fun _ _ => Ok demo_parsed;
     tf_decode_jpeg := fun _ _ => Ok demo_image;
     tf_records := fun content => Ok [content];
     tf_multiply := mul32;
     keras_fit := fun _ _ _ _ => Ok (PList [PFloat (dec 1 2)]);
     keras_to_json := fun _ => Ok "{}";
     saved_model_targz := fun _ _ => Ok "saved_model.tar.gz";
     keras_predict := fun _ _ _ =>
       Ok (PDict [ ("boxes", PList [PList [demo_box; demo_padding_box]]);
                   ("classes", PList [PList [PFloat (float_of_Z 3);
                                             PFloat (float_of_Z (-1))]]);
                   ("confidence", PList [PList [PFloat (dec 85 100);
                                                PFloat (float_of_Z (-1))]]) ]);
     kcv_to_ragged := fun _ =>
       Ok (PDict [ ("boxes", PList [PList [demo_box]]);
                   ("classes", PList [PList [PFloat (float_of_Z 3)]]) ]);
     kcv_resize := fun _ example => Ok (images example);
     image_value := fun _ => PStr "image";
     tf_convert_to_tensor := fun v => Ok v;
     wandb_init := fun _ id => Ok (default "run-1" id);
     s3_run_url := fun key => ("s3://bucket/metaflow/main_flow/1/" ++ key)%string;
     sagemaker_invoke := fun _ _ =>
       Ok (PDict [ ("predictions",
                    PList [PDict [ ("boxes", PList [demo_box]);
                                   ("classes", PList [PFloat (float_of_Z 3)]) ]]) ]) |}.

Definition demo_environ : gmap string string :=
  list_to_map
    [ ("WANDB_API_KEY", "key"); ("WANDB_ENTITY", "entity");
      ("WANDB_PROJECT", "project"); ("S3_BUCKET_ADDRESS", "bucket");
      ("KAGGLE_USERNAME", "user"); ("KAGGLE_KEY", "kaggle");
      ("IAM_ROLE_SAGEMAKER", "role") ].

Definition demo_state : state :=
  {| environ := demo_environ;
     utils_class_mapping := class_mapping;
     files := ∅;
     s3 := list_to_map
             [ ("s3://bucket/raw_data/leaves.tfrecord", "train record");
               ("s3://bucket/raw_data/test_leaves.tfrecord", "val record") ];
     endpoints := ∅;
     now_ms := 1720463605573;
     wandb_log := [];
     self := ∅;
     transition := None |}.

(** Two boxes with fractional and negative coordinates, their classes
    and confidences, and what the conversion makes of them. *)
Definition demo_box_list : list (list num) :=
  [ [NFloat (dec 419 4); NFloat (dec 5 2); NFloat (dec 1249 4); NInt 300];
    [NFloat (dec (-7) 2); NInt 0; NFloat (dec 21 2); NInt 8] ].

Definition demo_classes_list : list num := [NInt 3; NFloat (float_of_Z 30)].

Definition demo_confidence_list : list num :=
  [NFloat (dec 85 100); NFloat (dec 1 8)].

Definition demo_all_boxes : list box_data :=
  [ {| box_position := {| minX := 104; maxX := 312; minY := 2; maxY := 300 |};
       class_id := 3; box_caption := "Apple rust leaf (85%)";
       domain := "pixel" |};
    {| box_position := {| minX := -3; maxX := 10; minY := 0; maxY := 8 |};
       class_id := 30; box_caption := "grape leaf black rot (12%)";
       domain := "pixel" |} ].

(** A box whose first coordinate is NaN. *)
Definition nan_box_list : list (list num) :=
  [ [NFloat S754_nan; NInt 0; NInt 1; NInt 1] ].

(** ** Notions the statements use *)

(** What a program leaves as it was, however it ends. *)
Definition preserves {A X} (f : state → X) (m : M A) : Prop :=
  ∀ σ, f (snd (m σ)) = f σ.

(** Two calls in a row: the second sees the state the first left. *)
Definition twice {A} (m : M A) : M (A * A) :=
  let* first := m in
  let* second := m in
  ret (first, second).

(** The outcome of a program is a function of the part [f] of the state
    (and of the program's arguments). *)
Definition depends_only_on {A X} (f : state → X) (m : M A) : Prop :=
  ∀ σ1 σ2, f σ1 = f σ2 → fst (m σ1) = fst (m σ2).

(** A number [int()] accepts: an int, or a float that is neither NaN nor
    an infinity. *)
Definition finite_num (x : num) : bool :=
  match x with
  | NInt _ => true
  | NFloat f => is_finite f
  end.

(** A confidence whose percentage [100 * float(c)] is a finite float. *)
Definition confidence_ok (c : num) : bool :=
  match py_float c with
  | Ok f => is_finite (mul100 f)
  | Raise _ => false
  end.

(** A class id of the table [cm]. *)
Definition class_in (cm : gmap Z string) (c : num) : Prop :=
  ∃ k, py_int c = Ok k ∧ is_Some (cm !! k).

(** The shape constraints on the arguments of
    [convert_format_keras_to_wandb]: boxes of four numbers, as many
    classes, each a key of the table, and confidences absent or as many. *)
Definition shape_ok (cm : gmap Z string) (box_list : list (list num))
  (classes_list : list num) (confidence_list : option (list num)) : Prop :=
  Forall (fun box => length box = 4%nat) box_list ∧
  length classes_list = length box_list ∧
  Forall (class_in cm) classes_list ∧
  match confidence_list with
  | None => True
  | Some l => length l = length box_list
  end.

(** The shape constraints, and values [int()] and [round()] accept. *)
Definition well_formed (cm : gmap Z string) (box_list : list (list num))
  (classes_list : list num) (confidence_list : option (list num)) : Prop :=
  shape_ok cm box_list classes_list confidence_list ∧
  Forall (Forall (fun x => finite_num x = true)) box_list ∧
  match confidence_list with
  | None => True
  | Some l => Forall (fun c => confidence_ok c = true) l
  end.

(** The caption of an entry for the class named [name] at index [b_i]. *)
Definition caption_of (confidence_list : option (list num)) (b_i : nat)
  (name caption : string) : Prop :=
  if confidence_given confidence_list then
    ∃ cf f p, default [] confidence_list !! b_i = Some cf ∧
      py_float cf = Ok f ∧ py_round (mul100 f) = Ok p ∧
      caption = caption_with name p
  else caption = name.

(** A caption that shows a percentage holds a percent sign. *)
Fixpoint has_percent (s : string) : bool :=
  match s with
  | EmptyString => false
  | String c s' => Ascii.eqb c "%" || has_percent s'
  end.

(** The variables [start] asserts, in its order. *)
Definition required_env : list string :=
  [ "WANDB_API_KEY"; "WANDB_ENTITY"; "WANDB_PROJECT"; "S3_BUCKET_ADDRESS";
    "KAGGLE_USERNAME"; "KAGGLE_KEY"; "IAM_ROLE_SAGEMAKER" ].

(** The first assertion of [start] that fails over the variables [names],
    if one does: [KeyError] for a variable that is unset, [AssertionError]
    for one set to the empty string. *)
Fixpoint first_failure (env : gmap string string) (names : list string)
  : option exn :=
  match names with
  | [] => None
  | name :: names' =>
      match env !! name with
      | None => Some KeyError
      | Some v =>
          if String.eqb v "" then Some AssertionError
          else first_failure env names'
      end
  end.

(** A successful program leaves the transition [t] recorded. *)
Definition ends_in {A} (t : option stage) (m : M A) : Prop :=
  ∀ σ a σ', m σ = (Ok a, σ') → transition σ' = t.

(** What the order leaves from a stage on. *)
Definition rest_from (s : stage) : list stage :=
  match s with
  | S_start => pipeline
  | S_augment_data_train_model => drop 1 pipeline
  | S_evaluate_model => drop 2 pipeline
  | S_deploy => drop 3 pipeline
  | S_end => drop 4 pipeline
  end.

(** The attributes [evaluate_model] and [deploy] read, and do not write. *)
Definition handed_off : list string :=
  ["s3_path"; "config"; "train_tfrecord_file"].

(** The flow between its steps in the demo world. *)
Definition demo_after_augment : state :=
  Eval vm_compute in (augment_data_train_model demo_libs default_params demo_state).2.

Definition demo_after_evaluate : state :=
  Eval vm_compute in (evaluate_model demo_libs demo_after_augment).2.

Definition demo_after_deploy : state :=
  Eval vm_compute in (deploy demo_libs default_params demo_after_evaluate).2.

(** A variable that is set, and not to the empty string. *)
Definition env_set (env : gmap string string) (name : string) : Prop :=
  ∃ v, env !! name = Some v ∧ v ≠ "".

(** ** Notions of the further properties *)

(** The first four elements of a box are numbers [int()] accepts. *)
Definition box_accepted (box : list num) : Prop :=
  ∃ x_min y_min x_max y_max,
    box !! 0%nat = Some x_min ∧ box !! 1%nat = Some y_min ∧
    box !! 2%nat = Some x_max ∧ box !! 3%nat = Some y_max ∧
    finite_num x_min = true ∧ finite_num y_min = true ∧
    finite_num x_max = true ∧ finite_num y_max = true.

(** What [convert_format_keras_to_wandb] needs of its arguments at the
    index of every box. *)
Definition accepted (cm : gmap Z string) (box_list : list (list num))
  (classes_list : list num) (confidence_list : option (list num)) : Prop :=
  ∀ i box, box_list !! i = Some box →
    box_accepted box ∧
    (∃ c, classes_list !! i = Some c ∧ class_in cm c) ∧
    (confidence_given confidence_list = true →
     ∃ cf, default [] confidence_list !! i = Some cf ∧
           confidence_ok cf = true).

(** The libraries, with what [tf.io.parse_single_example] returns passed
    through [f]. *)
Definition with_parsed (f : gmap string tensor → gmap string tensor)
  (L : libs) : libs :=
  {| tf_parse_single_example := fun example features =>
       match tf_parse_single_example L example features with
       | Ok parsed => Ok (f parsed)
       | Raise e => Raise e
       end;
     tf_decode_jpeg := tf_decode_jpeg L;
     tf_records := tf_records L;
     tf_multiply := tf_multiply L;
     keras_fit := keras_fit L;
     keras_to_json := keras_to_json L;
     saved_model_targz := saved_model_targz L;
     keras_predict := keras_predict L;
     kcv_to_ragged := kcv_to_ragged L;
     kcv_resize := kcv_resize L;
     image_value := image_value L;
     tf_convert_to_tensor := tf_convert_to_tensor L;
     wandb_init := wandb_init L;
     s3_run_url := s3_run_url L;
     sagemaker_invoke := sagemaker_invoke L |}.

(** Other values for the two features the function asks for and does not
    read. *)
Definition set_height_width (h w : tensor) (parsed : gmap string tensor)
  : gmap string tensor :=
  <["image/height" := h]> (<["image/width" := w]> parsed).

(** What [parse_tfrecord_fn] makes of a record of the demo world. *)
Definition demo_example : image_dataset :=
  {| images := demo_image;
     bounding_boxes :=
       {| classes := [3];
          boxes := [ [ float32_of_Z 104; float32_of_Z 104;
                       float32_of_Z 312; float32_of_Z 312 ] ] |} |}.

(** The demo world with records that carry no xmax value. *)
Definition ragged_libs : libs :=
  with_parsed (insert "image/object/bbox/xmax" (TSparseFloat [])) demo_libs.

(** The demo world with KAGGLE_KEY unset. *)
Definition demo_state_no_kaggle_key : state :=
  {| environ := delete "KAGGLE_KEY" demo_environ;
     utils_class_mapping := class_mapping;
     files := ∅;
     s3 := s3 demo_state;
     endpoints := ∅;
     now_ms := 1720463605573;
     wandb_log := [];
     self := ∅;
     transition := None |}.

(** [s3_base_path + name], as [augment_data_train_model] builds it from
    the bucket of S3_BUCKET_ADDRESS. *)
Definition raw_data_url (bucket name : string) : string :=
  (("s3://" ++ bucket ++ "/raw_data/") ++ name)%string.

(** What a step can reach besides the flow object, the transition and
    the W&B log. *)
Definition storage (σ : state)
  : gmap string string * gmap Z string * gmap string string
    * gmap string string * gmap string string * Z :=
  (environ σ, utils_class_mapping σ, files σ, s3 σ, endpoints σ, now_ms σ).


(** What [deploy] can reach besides the endpoints, the flow object and
    the transition. *)
Definition outside_endpoints (σ : state)
  : gmap string string * gmap Z string * gmap string string
    * gmap string string * Z * list (string * list table_row) :=
  (environ σ, utils_class_mapping σ, files σ, s3 σ, now_ms σ, wandb_log σ).

(** The demo world with an endpoint that answers every request with an
    error, and its deploy step. *)
Definition failing_endpoint_libs : libs :=
  {| tf_parse_single_example := tf_parse_single_example demo_libs;
     tf_decode_jpeg := tf_decode_jpeg demo_libs;
     tf_records := tf_records demo_libs;
     tf_multiply := tf_multiply demo_libs;
     keras_fit := keras_fit demo_libs;
     keras_to_json := keras_to_json demo_libs;
     saved_model_targz := saved_model_targz demo_libs;
     keras_predict := keras_predict demo_libs;
     kcv_to_ragged := kcv_to_ragged demo_libs;
     kcv_resize := kcv_resize demo_libs;
     image_value := image_value demo_libs;
     tf_convert_to_tensor := tf_convert_to_tensor demo_libs;
     wandb_init := wandb_init demo_libs;
     s3_run_url := s3_run_url demo_libs;
     sagemaker_invoke := fun _ _ => Raise (LibraryError "ModelError") |}.

Definition demo_after_failed_request : state :=
  Eval vm_compute in
    (deploy_test_request failing_endpoint_libs
       (endpoint_name (now_ms demo_after_evaluate))
       (set_endpoints
          (insert (endpoint_name (now_ms demo_after_evaluate))
             "s3://bucket/metaflow/main_flow/1/model-0.0001.tar.gz")
          demo_after_evaluate)).2.

(** The states between the steps of the demo run. *)
Definition demo_run_1 : state :=
  Eval vm_compute in (run_step demo_libs default_params S_start demo_state).2.
Definition demo_run_2 : state :=
  Eval vm_compute in
    (run_step demo_libs default_params S_augment_data_train_model demo_run_1).2.
Definition demo_run_3 : state :=
  Eval vm_compute in
    (run_step demo_libs default_params S_evaluate_model demo_run_2).2.
Definition demo_run_end : state :=
  Eval vm_compute in (main_flow demo_libs default_params 5 demo_state).2.

(** * Reasoning about programs of the monad *)

Section Monad_facts.
Context {A B : Type}.

Lemma bind_ok_inv (m : M A) (k : A → M B) σ b σ' :
  bind m k σ = (Ok b, σ') →
  ∃ a σ1, m σ = (Ok a, σ1) ∧ k a σ1 = (Ok b, σ').
Proof.
  unfold bind. destruct (m σ) as [[a | e] σ1]; [eauto | discriminate].
Qed.

Lemma bind_run (m : M A) (k : A → M B) σ a σ1 :
  m σ = (Ok a, σ1) → bind m k σ = k a σ1.
Proof. unfold bind. now intros ->. Qed.

Lemma lift_ok_inv (r : result A) σ a σ' :
  lift r σ = (Ok a, σ') → r = Ok a ∧ σ' = σ.
Proof. unfold lift. intros [= -> ->]. auto. Qed.

Lemma ret_ok_inv (x : A) σ a σ' : ret x σ = (Ok a, σ') → a = x ∧ σ' = σ.
Proof. unfold ret. intros [= -> ->]. auto. Qed.

End Monad_facts.

Lemma getattr_ok_inv name σ v σ' :
  getattr name σ = (Ok v, σ') → self σ !! name = Some v ∧ σ' = σ.
Proof.
  unfold getattr. destruct (self σ !! name); intros [= <- <-]; auto.
Qed.

Lemma setattr_ok_inv name v σ u σ' :
  setattr name v σ = (Ok u, σ') → σ' = set_self (insert name v) σ.
Proof. unfold setattr, modify. now intros [= _ <-]. Qed.

Lemma modify_ok_inv f σ u σ' : modify f σ = (Ok u, σ') → σ' = f σ.
Proof. unfold modify. now intros [= _ <-]. Qed.

Lemma gets_ok_inv {A} (f : state → A) σ a σ' :
  gets f σ = (Ok a, σ') → a = f σ ∧ σ' = σ.
Proof. unfold gets. intros [= <- <-]. auto. Qed.

Lemma os_environ_ok_inv name σ v σ' :
  os_environ name σ = (Ok v, σ') → environ σ !! name = Some v ∧ σ' = σ.
Proof.
  unfold os_environ. destruct (environ σ !! name); intros [= <- <-]; auto.
Qed.

Lemma read_file_ok_inv path σ c σ' :
  read_file path σ = (Ok c, σ') → files σ !! path = Some c ∧ σ' = σ.
Proof.
  unfold read_file. destruct (files σ !! path); intros [= <- <-]; auto.
Qed.

Lemma s3_get_ok_inv url σ c σ' :
  s3_get url σ = (Ok c, σ') → s3 σ !! url = Some c ∧ σ' = σ.
Proof.
  unfold s3_get. destruct (s3 σ !! url); intros [= <- <-]; auto.
Qed.

Lemma class_mapping_getitem_ok_inv cid σ name σ' :
  class_mapping_getitem cid σ = (Ok name, σ') →
  utils_class_mapping σ !! cid = Some name ∧ σ' = σ.
Proof.
  unfold class_mapping_getitem.
  destruct (utils_class_mapping σ !! cid); intros [= <- <-]; auto.
Qed.

Lemma create_endpoint_ok_inv name md σ u σ' :
  create_endpoint name md σ = (Ok u, σ') →
  endpoints σ !! name = None ∧ σ' = set_endpoints (insert name md) σ.
Proof.
  unfold create_endpoint.
  destruct (s3 σ !! md); [| discriminate].
  destruct (endpoints σ !! name); [discriminate |].
  intros [= _ <-]. auto.
Qed.

Lemma delete_endpoint_ok_inv name σ u σ' :
  delete_endpoint name σ = (Ok u, σ') → σ' = set_endpoints (delete name) σ.
Proof.
  unfold delete_endpoint.
  destruct (endpoints σ !! name); [| discriminate]. now intros [= _ <-].
Qed.

(** Inversion of a run that returned: one bind at a time, the
    primitive steps resolved on the way. *)
Ltac inv_prim H :=
  first
    [ apply ret_ok_inv in H; destruct H as [-> ->]
    | apply lift_ok_inv in H; destruct H as [H ->]
    | apply getattr_ok_inv in H; destruct H as [H ->]
    | apply setattr_ok_inv in H; subst
    | apply gets_ok_inv in H; destruct H as [-> ->]
    | apply os_environ_ok_inv in H; destruct H as [H ->]
    | apply read_file_ok_inv in H; destruct H as [H ->]
    | apply s3_get_ok_inv in H; destruct H as [H ->]
    | apply class_mapping_getitem_ok_inv in H; destruct H as [H ->]
    | apply create_endpoint_ok_inv in H; destruct H as [H ->]
    | apply delete_endpoint_ok_inv in H; subst
    | apply modify_ok_inv in H; subst
    | idtac ].

Ltac inv_bind H :=
  let a := fresh "a" in
  let σ1 := fresh "σ" in
  let H1 := fresh "Hstep" in
  apply bind_ok_inv in H; destruct H as (a & σ1 & H1 & H); inv_prim H1.

Ltac inv_binds H := repeat inv_bind H.

(** ** Frames *)

Section Preserves.
Context {X : Type} (f : state → X).

Lemma preserves_ret {A} (a : A) : preserves f (ret a).
Proof. now intros σ. Qed.

Lemma preserves_raise {A} e : preserves f (@raise A e).
Proof. now intros σ. Qed.

Lemma preserves_lift {A} (r : result A) : preserves f (lift r).
Proof. now intros σ. Qed.

Lemma preserves_gets {A} (g : state → A) : preserves f (gets g).
Proof. now intros σ. Qed.

Lemma preserves_bind {A B} (m : M A) (k : A → M B) :
  preserves f m → (∀ a, preserves f (k a)) → preserves f (bind m k).
Proof.
  intros Hm Hk σ. unfold bind. specialize (Hm σ).
  destruct (m σ) as [[a | e] σ1]; simpl in *; [| assumption].
  now rewrite Hk.
Qed.

Lemma preserves_modify (g : state → state) :
  (∀ σ, f (g σ) = f σ) → preserves f (modify g).
Proof. intros Hg σ. apply Hg. Qed.

Lemma preserves_getattr name : preserves f (getattr name).
Proof. intros σ. unfold getattr. now destruct (self σ !! name). Qed.

Lemma preserves_os_environ name : preserves f (os_environ name).
Proof. intros σ. unfold os_environ. now destruct (environ σ !! name). Qed.

Lemma preserves_read_file path : preserves f (read_file path).
Proof. intros σ. unfold read_file. now destruct (files σ !! path). Qed.

Lemma preserves_s3_get url : preserves f (s3_get url).
Proof. intros σ. unfold s3_get. now destruct (s3 σ !! url). Qed.

Lemma preserves_class_mapping_getitem cid :
  preserves f (class_mapping_getitem cid).
Proof.
  intros σ. unfold class_mapping_getitem.
  now destruct (utils_class_mapping σ !! cid).
Qed.

Lemma preserves_endpoint_invoke L name img :
  preserves f (endpoint_invoke L name img).
Proof.
  intros σ. unfold endpoint_invoke.
  destruct (endpoints σ !! name) as [md |]; [| reflexivity].
  now destruct (s3 σ !! md).
Qed.

Lemma preserves_assert_str v : preserves f (assert_str v).
Proof. intros σ. unfold assert_str. now destruct (String.eqb v ""). Qed.

Lemma preserves_map_m {A B} (g : A → M B) xs :
  (∀ x, preserves f (g x)) → preserves f (map_m g xs).
Proof.
  intros Hg. induction xs as [| x xs IH]; simpl.
  - apply preserves_ret.
  - apply preserves_bind; [apply Hg |]. intros y.
    apply preserves_bind; [apply IH |]. intros ys. apply preserves_ret.
Qed.

End Preserves.

(** A program that leaves the whole state leaves every part of it. *)
Lemma preserves_part {A X} (f : state → X) (m : M A) :
  preserves id m → preserves f m.
Proof. intros H σ. unfold preserves in H. simpl in H. now rewrite H. Qed.

Lemma preserves_setattr_other (k name : string) v :
  name ≠ k → preserves (fun σ => self σ !! k) (setattr name v).
Proof.
  intros Hne. apply preserves_modify. intros σ. simpl.
  now apply lookup_insert_ne.
Qed.

Create HintDb frame.
#[export] Hint Resolve preserves_ret preserves_raise preserves_lift
  preserves_gets preserves_getattr preserves_os_environ preserves_read_file
  preserves_s3_get preserves_class_mapping_getitem preserves_endpoint_invoke
  preserves_assert_str : frame.

(** Walks down a chain of binds, splitting on the branches it meets. *)
Ltac frame_step :=
  lazymatch goal with
  | |- preserves _ (bind _ _) => apply preserves_bind; [| intros ?]
  | |- preserves _ (if ?b then _ else _) => destruct b
  | |- preserves _ (match ?x with _ => _ end) => destruct x
  | |- preserves _ (let _ := _ in _) => cbv zeta
  end.

Ltac frame := repeat frame_step; auto with frame.

(** * [utils.py] *)

(** ** Neither transform touches the state *)

Lemma convert_box_frame b_i box classes_list confidence_list :
  preserves id (convert_box b_i box classes_list confidence_list).
Proof. unfold convert_box. frame. Qed.

Lemma convert_loop_frame box_list :
  ∀ b_i classes_list confidence_list all_boxes,
    preserves id
      (convert_loop b_i box_list classes_list confidence_list all_boxes).
Proof.
  induction box_list as [| box rest IH]; intros; simpl.
  - apply preserves_ret.
  - apply preserves_bind; [apply convert_box_frame | intros d; apply IH].
Qed.

Lemma convert_frame box_list classes_list confidence_list :
  preserves id
    (convert_format_keras_to_wandb box_list classes_list confidence_list).
Proof. apply convert_loop_frame. Qed.

Lemma parse_frame L example : preserves id (parse_tfrecord_fn L example).
Proof. unfold parse_tfrecord_fn. frame. Qed.

#[export] Hint Resolve convert_frame parse_frame : frame.

(** A run that leaves the state: its outcome paired with the state. *)
Lemma frame_run {A} (m : M A) σ : preserves id m → m σ = (fst (m σ), σ).
Proof.
  intros H. specialize (H σ). simpl in H.
  destruct (m σ) as [r σ']. simpl in *. now subst.
Qed.

(** ** What one pass of the loop yields *)

Lemma index_ok_inv {A} (l : list A) i a : index l i = Ok a → l !! i = Some a.
Proof. unfold index. destruct (l !! i); now intros [= ->]. Qed.

Lemma index_lookup {A} (l : list A) i a : l !! i = Some a → index l i = Ok a.
Proof. unfold index. now intros ->. Qed.

Lemma convert_box_ok_inv b_i box classes_list confidence_list σ d σ' :
  convert_box b_i box classes_list confidence_list σ = (Ok d, σ') →
  σ' = σ ∧
  ∃ x_min y_min x_max y_max c name,
    box !! 0%nat = Some x_min ∧ box !! 1%nat = Some y_min ∧
    box !! 2%nat = Some x_max ∧ box !! 3%nat = Some y_max ∧
    py_int x_min = Ok (minX (box_position d)) ∧
    py_int y_min = Ok (minY (box_position d)) ∧
    py_int x_max = Ok (maxX (box_position d)) ∧
    py_int y_max = Ok (maxY (box_position d)) ∧
    classes_list !! b_i = Some c ∧ py_int c = Ok (class_id d) ∧
    utils_class_mapping σ !! class_id d = Some name ∧
    domain d = "pixel" ∧
    caption_of confidence_list b_i name (box_caption d).
Proof.
  unfold convert_box, caption_of. intros H.
  do 10 inv_bind H.
  repeat match goal with
         | Hi : index _ _ = Ok _ |- _ => apply index_ok_inv in Hi
         end.
  destruct (confidence_given confidence_list).
  - inv_binds H. inv_prim H.
    match goal with Hi : index _ _ = Ok _ |- _ => apply index_ok_inv in Hi end.
    split; [reflexivity |]. simpl. do 6 eexists.
    repeat (split; [eassumption || reflexivity |]).
    do 3 eexists. repeat (split; [eassumption |]). reflexivity.
  - inv_binds H. inv_prim H.
    split; [reflexivity |]. simpl. do 6 eexists.
    repeat (split; [eassumption || reflexivity |]). reflexivity.
Qed.

Lemma convert_loop_ok box_list :
  ∀ b_i classes_list confidence_list all_boxes σ out σ',
    convert_loop b_i box_list classes_list confidence_list all_boxes σ
      = (Ok out, σ') →
    σ' = σ ∧
    ∃ new, out = (all_boxes ++ new)%list ∧ length new = length box_list ∧
      ∀ j box, box_list !! j = Some box →
        ∃ d, new !! j = Some d ∧
          convert_box (b_i + j) box classes_list confidence_list σ = (Ok d, σ).
Proof.
  induction box_list as [| box rest IH]; intros b_i cl conf acc σ out σ' H;
    simpl in H.
  - inv_prim H. split; [reflexivity |]. exists []. rewrite app_nil_r.
    repeat split. intros j b Hj. now rewrite lookup_nil in Hj.
  - inv_bind H.
    pose proof (convert_box_ok_inv _ _ _ _ _ _ _ Hstep) as [-> _].
    apply IH in H as [-> (new & -> & Hlen & Hnew)].
    split; [reflexivity |]. exists (a :: new). rewrite <- app_assoc.
    repeat split; [simpl; now rewrite Hlen |].
    intros [| j] b Hj; simpl in Hj.
    + injection Hj as <-. exists a. rewrite Nat.add_0_r. auto.
    + apply Hnew in Hj as (d & Hd & Hbox). exists d.
      now rewrite Nat.add_succ_r.
Qed.

(** The function returns one entry per box, the entry of its index. *)
Lemma convert_ok box_list classes_list confidence_list σ out σ' :
  convert_format_keras_to_wandb box_list classes_list confidence_list σ
    = (Ok out, σ') →
  σ' = σ ∧ length out = length box_list ∧
  ∀ i box, box_list !! i = Some box →
    ∃ d, out !! i = Some d ∧
      convert_box i box classes_list confidence_list σ = (Ok d, σ).
Proof.
  intros H. apply convert_loop_ok in H as [-> (new & -> & Hlen & Hnew)].
  simpl. auto.
Qed.

(** ** When the function returns *)

Lemma py_int_finite x : finite_num x = true → ∃ z, py_int x = Ok z.
Proof.
  destruct x as [z | [s | s | | s m e]]; simpl; intros H;
    try discriminate; eauto.
Qed.

Lemma py_round_finite f : is_finite f = true → ∃ p, py_round f = Ok p.
Proof. destruct f; simpl; intros H; try discriminate; eauto. Qed.

Lemma confidence_ok_round c :
  confidence_ok c = true →
  ∃ f p, py_float c = Ok f ∧ py_round (mul100 f) = Ok p.
Proof.
  unfold confidence_ok. destruct (py_float c) as [f | e]; [| discriminate].
  intros H. apply py_round_finite in H as [p Hp]. eauto.
Qed.

Lemma convert_box_total b_i box classes_list confidence_list σ c :
  length box = 4%nat →
  Forall (fun x => finite_num x = true) box →
  classes_list !! b_i = Some c →
  class_in (utils_class_mapping σ) c →
  (confidence_given confidence_list = true →
   ∃ cf, default [] confidence_list !! b_i = Some cf ∧ confidence_ok cf = true) →
  ∃ d, convert_box b_i box classes_list confidence_list σ = (Ok d, σ).
Proof.
  intros Hlen Hfin Hc (k & Hk & name & Hname) Hconf.
  destruct box as [| x0 [| x1 [| x2 [| x3 [| ? ?]]]]]; try discriminate.
  repeat match goal with
         | H : Forall _ (_ :: _) |- _ => apply Forall_cons in H as [? H]
         end.
  repeat match goal with
         | H : finite_num _ = true |- _ => apply py_int_finite in H as [? H]
         end.
  unfold convert_box.
  repeat (erewrite bind_run; [| unfold lift; simpl; f_equal; eassumption]).
  erewrite bind_run;
    [| unfold lift; f_equal; apply index_lookup; eassumption].
  erewrite bind_run; [| unfold lift; f_equal; eassumption].
  destruct (confidence_given confidence_list).
  - destruct Hconf as (cf & Hcf & Hok); [reflexivity |].
    apply confidence_ok_round in Hok as (f & p & Hf & Hp).
    erewrite bind_run;
      [| unfold lift; f_equal; apply index_lookup; eassumption].
    erewrite bind_run; [| unfold lift; f_equal; eassumption].
    erewrite bind_run; [| unfold lift; f_equal; eassumption].
    erewrite bind_run;
      [| unfold class_mapping_getitem; rewrite Hname; reflexivity].
    eexists. reflexivity.
  - erewrite bind_run;
      [| unfold class_mapping_getitem; rewrite Hname; reflexivity].
    eexists. reflexivity.
Qed.

Lemma convert_loop_total box_list :
  ∀ b_i classes_list confidence_list all_boxes σ,
    (∀ j box, box_list !! j = Some box →
       length box = 4%nat ∧ Forall (fun x => finite_num x = true) box ∧
       (∃ c, classes_list !! (b_i + j)%nat = Some c ∧
             class_in (utils_class_mapping σ) c) ∧
       (confidence_given confidence_list = true →
        ∃ cf, default [] confidence_list !! (b_i + j)%nat = Some cf ∧
              confidence_ok cf = true)) →
    ∃ out,
      convert_loop b_i box_list classes_list confidence_list all_boxes σ
        = (Ok out, σ).
Proof.
  induction box_list as [| box rest IH]; intros b_i cl conf acc σ Hwf; simpl.
  - eexists. reflexivity.
  - destruct (Hwf 0%nat box eq_refl) as (Hlen & Hfin & (c & Hc & Hin) & Hcf).
    rewrite Nat.add_0_r in Hc, Hcf.
    destruct (convert_box_total b_i box cl conf σ c) as [d Hd]; auto.
    erewrite bind_run; [| exact Hd].
    apply IH. intros j b Hj. rewrite Nat.add_succ_l, <- Nat.add_succ_r.
    now apply (Hwf (S j)).
Qed.

(** Well-formed arguments make the function return. *)
Lemma convert_total box_list classes_list confidence_list σ :
  well_formed (utils_class_mapping σ) box_list classes_list confidence_list →
  ∃ out,
    convert_format_keras_to_wandb box_list classes_list confidence_list σ
      = (Ok out, σ).
Proof.
  intros ((Hlen4 & Hlen & Hcls & Hshape) & Hfin & Hconf).
  apply convert_loop_total. intros j box Hj. simpl.
  rewrite Forall_lookup in Hlen4. rewrite Forall_lookup in Hfin.
  rewrite Forall_lookup in Hcls.
  split; [now apply (Hlen4 j) |]. split; [now apply (Hfin j) |]. split.
  - destruct (lookup_lt_is_Some_2 classes_list j) as [c Hc].
    { rewrite Hlen. now apply lookup_lt_Some in Hj. }
    exists c. split; [exact Hc |]. now apply (Hcls j).
  - destruct confidence_list as [l |]; [| discriminate]. intros _. simpl.
    destruct (lookup_lt_is_Some_2 l j) as [cf Hcf].
    { rewrite Hshape. now apply lookup_lt_Some in Hj. }
    exists cf. split; [exact Hcf |].
    rewrite Forall_lookup in Hconf. now apply (Hconf j).
Qed.

Example convert_demo :
  convert_format_keras_to_wandb demo_box_list demo_classes_list
    (Some demo_confidence_list) demo_state
  = (Ok demo_all_boxes, demo_state).
Proof. vm_compute. reflexivity. Qed.

(** ** Coordinates *)

(** [int()] of a finite float is its magnitude's integer part, with
    its sign: truncation toward zero. *)
Lemma py_int_truncates s m e :
  py_int (NFloat (S754_finite s m e))
  = Ok (cond_Zopp s (if 0 <=? e then Zpos m * 2 ^ e else Zpos m / 2 ^ (- e))).
Proof.
  simpl. unfold trunc_pos. f_equal. f_equal.
  destruct (Z.leb_spec 0 e) as [He | He].
  - now apply Z.shiftl_mul_pow2.
  - apply Z.shiftl_div_pow2. lia.
Qed.

(** C2: for every box [x_min, y_min, x_max, y_max] at index i of
    box_list, the i-th returned dictionary's position has
    minX = int(x_min), minY = int(y_min), maxX = int(x_max) and
    maxY = int(y_max). *)
Theorem convert_positions box_list classes_list confidence_list σ out σ'
    i x_min y_min x_max y_max :
  convert_format_keras_to_wandb box_list classes_list confidence_list σ
    = (Ok out, σ') →
  box_list !! i = Some [x_min; y_min; x_max; y_max] →
  ∃ d, out !! i = Some d ∧
    py_int x_min = Ok (minX (box_position d)) ∧
    py_int y_min = Ok (minY (box_position d)) ∧
    py_int x_max = Ok (maxX (box_position d)) ∧
    py_int y_max = Ok (maxY (box_position d)).
Proof.
  intros Hrun Hbox.
  apply convert_ok in Hrun as (-> & _ & Hentries).
  destruct (Hentries _ _ Hbox) as (d & Hd & Hconv).
  apply convert_box_ok_inv in Hconv
    as (_ & a & b & c & e & _ & _ & Ha & Hb & Hc & He & H0 & H1 & H2 & H3 & _).
  simpl in Ha, Hb, Hc, He.
  injection Ha as <-. injection Hb as <-. injection Hc as <-.
  injection He as <-. eauto 6.
Qed.

Lemma convert_positions_witness :
  ∃ d, demo_all_boxes !! 1%nat = Some d ∧
    py_int (NFloat (dec (-7) 2)) = Ok (minX (box_position d)) ∧
    py_int (NInt 0) = Ok (minY (box_position d)) ∧
    py_int (NFloat (dec 21 2)) = Ok (maxX (box_position d)) ∧
    py_int (NInt 8) = Ok (maxY (box_position d)).
Proof.
  apply (convert_positions demo_box_list demo_classes_list
           (Some demo_confidence_list) demo_state demo_all_boxes demo_state).
  - vm_compute. reflexivity.
  - reflexivity.
Defined.

(** ** Count and order *)

(** C8: the returned list has one entry per box, in the order of
    box_list; the i-th entry is the one the loop body builds from
    box_list[i] and classes_list[i], with class_id = int(classes_list[i]),
    domain = "pixel" and a caption built from class_mapping[class_id]. *)
Theorem convert_count_order box_list classes_list confidence_list σ out σ' :
  convert_format_keras_to_wandb box_list classes_list confidence_list σ
    = (Ok out, σ') →
  length out = length box_list ∧
  ∀ i box, box_list !! i = Some box →
    ∃ d c name, out !! i = Some d ∧
      convert_box i box classes_list confidence_list σ = (Ok d, σ) ∧
      classes_list !! i = Some c ∧ py_int c = Ok (class_id d) ∧
      domain d = "pixel" ∧
      utils_class_mapping σ !! class_id d = Some name ∧
      caption_of confidence_list i name (box_caption d).
Proof.
  intros Hrun. apply convert_ok in Hrun as (-> & Hlen & Hentries).
  split; [exact Hlen |]. intros i box Hbox.
  destruct (Hentries _ _ Hbox) as (d & Hd & Hconv).
  pose proof (convert_box_ok_inv _ _ _ _ _ _ _ Hconv)
    as (_ & _ & _ & _ & _ & c & name & _ & _ & _ & _ & _ & _ & _ & _
        & Hc & Hid & Hname & Hdom & Hcap).
  exists d, c, name. auto 10.
Qed.

Lemma convert_count_order_witness :
  length demo_all_boxes = length demo_box_list ∧
  ∀ i box, demo_box_list !! i = Some box →
    ∃ d c name, demo_all_boxes !! i = Some d ∧
      convert_box i box demo_classes_list (Some demo_confidence_list) demo_state
        = (Ok d, demo_state) ∧
      demo_classes_list !! i = Some c ∧ py_int c = Ok (class_id d) ∧
      domain d = "pixel" ∧
      utils_class_mapping demo_state !! class_id d = Some name ∧
      caption_of (Some demo_confidence_list) i name (box_caption d).
Proof.
  apply (convert_count_order demo_box_list demo_classes_list
           (Some demo_confidence_list) demo_state demo_all_boxes demo_state).
  vm_compute. reflexivity.
Defined.

(** ** Captions and the confidence list *)

Lemma has_percent_app a b :
  has_percent (a ++ b) = has_percent a || has_percent b.
Proof.
  induction a as [| c a IH]; simpl; [reflexivity |].
  now rewrite IH, orb_assoc.
Qed.

Lemma has_percent_caption_with name p :
  has_percent (caption_with name p) = true.
Proof.
  unfold caption_with. rewrite !has_percent_app. simpl.
  now rewrite !orb_true_r.
Qed.

Lemma class_names_no_percent k name :
  class_mapping !! k = Some name → has_percent name = false.
Proof.
  intros H. apply elem_of_list_to_map_2 in H.
  assert (Hall : Forall (fun kv => has_percent kv.2 = false) class_mapping_items)
    by (repeat constructor).
  rewrite Forall_forall in Hall. exact (Hall _ H).
Qed.

(** An empty confidence list runs the loop as an absent one does. *)
Lemma convert_loop_empty_confidence box_list :
  ∀ b_i classes_list all_boxes σ,
    convert_loop b_i box_list classes_list (Some []) all_boxes σ
    = convert_loop b_i box_list classes_list None all_boxes σ.
Proof.
  induction box_list as [| box rest IH]; intros b_i cl acc σ; simpl;
    [reflexivity |].
  unfold bind.
  change (convert_box b_i box cl (Some [])) with (convert_box b_i box cl None).
  destruct (convert_box b_i box cl None σ) as [[d | e] σ1]; [apply IH | reflexivity].
Qed.

(** The caption of a returned entry, by whether confidences were given. *)
Lemma convert_caption box_list classes_list confidence_list σ out σ' i d :
  convert_format_keras_to_wandb box_list classes_list confidence_list σ
    = (Ok out, σ') →
  out !! i = Some d →
  ∃ name, utils_class_mapping σ !! class_id d = Some name ∧
    caption_of confidence_list i name (box_caption d).
Proof.
  intros Hrun Hd. apply convert_ok in Hrun as (-> & Hlen & Hentries).
  destruct (lookup_lt_is_Some_2 box_list i) as [box Hbox].
  { rewrite <- Hlen. now apply lookup_lt_Some in Hd. }
  destruct (Hentries _ _ Hbox) as (d' & Hd' & Hconv).
  rewrite Hd in Hd'. injection Hd' as <-.
  apply convert_box_ok_inv in Hconv
    as (_ & _ & _ & _ & _ & _ & name & _ & _ & _ & _ & _ & _ & _ & _
        & _ & _ & Hname & _ & Hcap).
  eauto.
Qed.

(** C9, amended: an empty confidence_list is treated as an absent one.
    The two calls run alike on every input, errors included; a call
    without confidences that returns gives one entry per box, each
    caption the bare class name; it does return on well-formed boxes and
    classes (four finite numbers per box, a class of the table at each
    index); with the table of utils.py a caption shows a percentage
    exactly when the confidence list is not empty, and the percentage is
    round(100 * confidence). *)
Theorem convert_empty_confidence box_list classes_list σ :
  convert_format_keras_to_wandb box_list classes_list (Some []) σ
  = convert_format_keras_to_wandb box_list classes_list None σ
  ∧ (∀ confidence_list out σ',
       confidence_given confidence_list = false →
       convert_format_keras_to_wandb box_list classes_list confidence_list σ
         = (Ok out, σ') →
       length out = length box_list ∧
       ∀ i d, out !! i = Some d →
         utils_class_mapping σ !! class_id d = Some (box_caption d))
  ∧ (∀ confidence_list,
       confidence_given confidence_list = false →
       well_formed (utils_class_mapping σ) box_list classes_list None →
       ∃ out,
         convert_format_keras_to_wandb box_list classes_list confidence_list σ
           = (Ok out, σ))
  ∧ (∀ confidence_list out σ' i d,
       confidence_given confidence_list = true →
       convert_format_keras_to_wandb box_list classes_list confidence_list σ
         = (Ok out, σ') →
       out !! i = Some d →
       ∃ name cf f p,
         utils_class_mapping σ !! class_id d = Some name ∧
         default [] confidence_list !! i = Some cf ∧
         py_float cf = Ok f ∧ py_round (mul100 f) = Ok p ∧
         box_caption d = caption_with name p)
  ∧ (∀ confidence_list out σ' i d,
       utils_class_mapping σ = class_mapping →
       convert_format_keras_to_wandb box_list classes_list confidence_list σ
         = (Ok out, σ') →
       out !! i = Some d →
       has_percent (box_caption d) = confidence_given confidence_list).
Proof.
  split; [apply convert_loop_empty_confidence |].
  split.
  { intros conf out σ' Hconf Hrun. split.
    - now apply convert_ok in Hrun as (_ & Hlen & _).
    - intros i d Hd.
      destruct (convert_caption _ _ _ _ _ _ _ _ Hrun Hd)
        as (name & Hname & Hcap).
      unfold caption_of in Hcap. rewrite Hconf in Hcap. now rewrite Hcap. }
  split.
  { intros conf Hconf Hwf.
    destruct (convert_total _ _ _ _ Hwf) as [out Hout]. exists out.
    destruct conf as [[| c l] |]; try discriminate; [| exact Hout].
    unfold convert_format_keras_to_wandb.
    now rewrite convert_loop_empty_confidence. }
  split.
  { intros conf out σ' i d Hconf Hrun Hd.
    destruct (convert_caption _ _ _ _ _ _ _ _ Hrun Hd) as (name & Hname & Hcap).
    unfold caption_of in Hcap. rewrite Hconf in Hcap.
    destruct Hcap as (cf & f & p & ? & ? & ? & ?). eauto 10. }
  intros conf out σ' i d Hcm Hrun Hd.
  destruct (convert_caption _ _ _ _ _ _ _ _ Hrun Hd) as (name & Hname & Hcap).
  unfold caption_of in Hcap. rewrite Hcm in Hname.
  destruct (confidence_given conf).
  - destruct Hcap as (cf & f & p & _ & _ & _ & ->).
    apply has_percent_caption_with.
  - subst. now apply class_names_no_percent in Hname.
Qed.

Example convert_empty_confidence_demo :
  fst (convert_format_keras_to_wandb demo_box_list demo_classes_list
         (Some []) demo_state)
  = Ok [ {| box_position := {| minX := 104; maxX := 312; minY := 2; maxY := 300 |};
            class_id := 3; box_caption := "Apple rust leaf";
            domain := "pixel" |};
         {| box_position := {| minX := -3; maxX := 10; minY := 0; maxY := 8 |};
            class_id := 30; box_caption := "grape leaf black rot";
            domain := "pixel" |} ].
Proof. vm_compute. reflexivity. Qed.

(** ** Failures *)

(** The shape constraints alone do not keep [int()] from raising: a box
    of four floats, one of them NaN. *)
Lemma convert_raises_on_nan :
  shape_ok class_mapping nan_box_list [NInt 1] None ∧
  fst (convert_format_keras_to_wandb nan_box_list [NInt 1] None demo_state)
  = Raise ValueError.
Proof.
  split; [| vm_compute; reflexivity].
  repeat split.
  - repeat constructor.
  - repeat constructor. exists 1. split; [reflexivity |].
    vm_compute. eauto.
Qed.

(** Nor does an empty confidence list: one box with a NaN coordinate and
    a class of the table, and the call raises with the empty list as it
    does with none. *)
Lemma convert_empty_confidence_raises :
  length nan_box_list = 1%nat ∧
  length [NInt 1] = length nan_box_list ∧
  utils_class_mapping demo_state !! 1 = Some "Apple Scab Leaf" ∧
  confidence_given (Some []) = false ∧
  fst (convert_format_keras_to_wandb nan_box_list [NInt 1] (Some []) demo_state)
  = Raise ValueError ∧
  fst (convert_format_keras_to_wandb nan_box_list [NInt 1] None demo_state)
  = Raise ValueError.
Proof.
  split; [reflexivity |]. split; [reflexivity |].
  split; [vm_compute; reflexivity |]. split; [reflexivity |].
  split; vm_compute; reflexivity.
Qed.

(** Nor [round()]: the largest finite confidence has an infinite
    percentage, and the call raises OverflowError. *)
Example convert_raises_on_overflow :
  fst (convert_format_keras_to_wandb [[NInt 0; NInt 0; NInt 1; NInt 1]]
         [NInt 1] (Some [NFloat (SFmax_float prec64 emax64)]) demo_state)
  = Raise OverflowError.
Proof. vm_compute. reflexivity. Qed.

(** C6, amended: on well-formed arguments (boxes of four numbers that
    are neither NaN nor infinite, as many classes whose integer values are
    keys of class_mapping, confidences absent or as many, each with a
    finite 100 * float(confidence)) the function returns a list and
    raises nothing, and it leaves the state as it was. *)
Theorem convert_returns box_list classes_list confidence_list σ :
  well_formed (utils_class_mapping σ) box_list classes_list confidence_list →
  ∃ out,
    convert_format_keras_to_wandb box_list classes_list confidence_list σ
      = (Ok out, σ) ∧
    length out = length box_list.
Proof.
  intros Hwf. destruct (convert_total _ _ _ _ Hwf) as [out Hout].
  exists out. split; [exact Hout |].
  now apply convert_ok in Hout as (_ & Hlen & _).
Qed.

Lemma demo_well_formed :
  well_formed (utils_class_mapping demo_state) demo_box_list demo_classes_list
    (Some demo_confidence_list).
Proof.
  repeat split.
  - repeat constructor.
  - repeat constructor.
    + exists 3. split; [reflexivity |]. vm_compute. eauto.
    + exists 30. split; [reflexivity |]. vm_compute. eauto.
  - repeat constructor.
  - repeat constructor.
Defined.

Lemma convert_returns_witness :
  ∃ out,
    convert_format_keras_to_wandb demo_box_list demo_classes_list
      (Some demo_confidence_list) demo_state = (Ok out, demo_state) ∧
    length out = length demo_box_list.
Proof.
  apply (convert_returns demo_box_list demo_classes_list
           (Some demo_confidence_list) demo_state).
  exact demo_well_formed.
Defined.

(** ** Purity *)

Lemma twice_pure {A} (m : M A) σ :
  preserves id m →
  twice m σ
  = (match fst (m σ) with Ok a => Ok (a, a) | Raise e => Raise e end, σ).
Proof.
  intros Hm. pose proof (frame_run m σ Hm) as E.
  destruct (fst (m σ)) as [a | e]; unfold twice, bind; rewrite E;
    [rewrite E |]; reflexivity.
Qed.

Section Depends.
Context {X : Type} (f : state → X).

Lemma depends_ret {A} (a : A) : depends_only_on f (ret a).
Proof. now intros σ1 σ2 _. Qed.

Lemma depends_lift {A} (r : result A) : depends_only_on f (lift r).
Proof. now intros σ1 σ2 _. Qed.

Lemma depends_bind {A B} (m : M A) (k : A → M B) :
  preserves id m → depends_only_on f m →
  (∀ a, depends_only_on f (k a)) →
  depends_only_on f (bind m k).
Proof.
  intros Hfr Hm Hk σ1 σ2 Hf. unfold bind.
  rewrite (frame_run m σ1 Hfr), (frame_run m σ2 Hfr), (Hm σ1 σ2 Hf).
  destruct (fst (m σ2)) as [a | e]; [now apply Hk | reflexivity].
Qed.

End Depends.

Lemma depends_class_mapping_getitem cid :
  depends_only_on utils_class_mapping (class_mapping_getitem cid).
Proof.
  intros σ1 σ2 Hcm. unfold class_mapping_getitem. rewrite Hcm.
  now destruct (utils_class_mapping σ2 !! cid).
Qed.

Ltac depends_step :=
  lazymatch goal with
  | |- depends_only_on _ (bind _ _) =>
      apply depends_bind; [solve [frame] | | intros ?]
  | |- depends_only_on _ (if ?b then _ else _) => destruct b
  | |- depends_only_on _ (let _ := _ in _) => cbv zeta
  end.

Ltac depends :=
  repeat depends_step;
  auto using depends_ret, depends_lift, depends_class_mapping_getitem.

(** Only the table of the state enters a pass of the loop. *)
Lemma convert_box_depends b_i box classes_list confidence_list :
  depends_only_on utils_class_mapping
    (convert_box b_i box classes_list confidence_list).
Proof. unfold convert_box. depends. Qed.

Lemma convert_loop_depends box_list :
  ∀ b_i classes_list confidence_list all_boxes,
    depends_only_on utils_class_mapping
      (convert_loop b_i box_list classes_list confidence_list all_boxes).
Proof.
  induction box_list as [| box rest IH]; intros; simpl.
  - apply depends_ret.
  - apply depends_bind;
      [apply convert_box_frame | apply convert_box_depends | intros d; apply IH].
Qed.

(** No part of the state enters the parsing. *)
Lemma parse_depends L example :
  depends_only_on (fun _ => tt) (parse_tfrecord_fn L example).
Proof. unfold parse_tfrecord_fn. depends. Qed.

(** C7: both transforms are pure. A call leaves the whole state as it
    was, however it ends; the outcome of convert_format_keras_to_wandb is
    the same in any two states that hold the same class_mapping, and the
    outcome of parse_tfrecord_fn is the same in any two states; two calls
    in a row on the same arguments return twice the same result. *)
Theorem utils_pure L box_list classes_list confidence_list example σ σ2 :
  (snd (convert_format_keras_to_wandb box_list classes_list confidence_list σ)
   = σ
   ∧ (utils_class_mapping σ = utils_class_mapping σ2 →
      fst (convert_format_keras_to_wandb box_list classes_list
             confidence_list σ)
      = fst (convert_format_keras_to_wandb box_list classes_list
               confidence_list σ2))
   ∧ twice (convert_format_keras_to_wandb box_list classes_list
              confidence_list) σ
     = (match fst (convert_format_keras_to_wandb box_list classes_list
                     confidence_list σ) with
        | Ok out => Ok (out, out)
        | Raise e => Raise e
        end, σ))
  ∧ (snd (parse_tfrecord_fn L example σ) = σ
     ∧ fst (parse_tfrecord_fn L example σ)
       = fst (parse_tfrecord_fn L example σ2)
     ∧ twice (parse_tfrecord_fn L example) σ
       = (match fst (parse_tfrecord_fn L example σ) with
          | Ok out => Ok (out, out)
          | Raise e => Raise e
          end, σ)).
Proof.
  repeat split.
  - apply (convert_frame box_list classes_list confidence_list σ).
  - apply convert_loop_depends.
  - apply twice_pure, convert_frame.
  - apply (parse_frame L example σ).
  - now apply parse_depends.
  - apply twice_pure, parse_frame.
Qed.

(** ** Parsing *)

(** Stacking four vectors of one length and scaling the rows. *)
Lemma stack_convert L img :
  ∀ xmin ymin xmax ymax,
    length ymin = length xmin → length xmax = length xmin →
    length ymax = length xmin →
    ∃ rel_boxes abs_boxes,
      stack4 xmin ymin xmax ymax = Ok rel_boxes ∧
      convert_format L rel_boxes img = Ok abs_boxes ∧
      length abs_boxes = length xmin ∧
      ∀ i x0 y0 x1 y1,
        xmin !! i = Some x0 → ymin !! i = Some y0 →
        xmax !! i = Some x1 → ymax !! i = Some y1 →
        abs_boxes !! i
        = Some [ tf_multiply L x0 (float32_of_Z (img_width img));
                 tf_multiply L y0 (float32_of_Z (img_height img));
                 tf_multiply L x1 (float32_of_Z (img_width img));
                 tf_multiply L y1 (float32_of_Z (img_height img)) ].
Proof.
  induction xmin as [| x xs IH]; intros [| y ys] [| z zs] [| w ws] Hy Hz Hw;
    try discriminate.
  - exists [], []. repeat split. intros i ? ? ? ? Hi.
    now rewrite lookup_nil in Hi.
  - simpl in Hy, Hz, Hw.
    destruct (IH ys zs ws) as (rel & abs & Hrel & Habs & Hlen & Hrows);
      try congruence.
    exists ([x; y; z; w] :: rel). eexists. simpl. rewrite Hrel.
    split; [reflexivity |]. unfold convert_format in *. simpl.
    rewrite Habs. split; [reflexivity |]. split; [simpl; now rewrite Hlen |].
    intros [| i] x0 y0 x1 y1; simpl.
    + now intros [= <-] [= <-] [= <-] [= <-].
    + apply Hrows.
Qed.

(** C5: on a well-formed serialized example (one that parses to an
    encoded image, four sparse float vectors of one length and a sparse
    label vector, and whose image decodes) parse_tfrecord_fn returns the
    dictionary with 'images' the image decoded with 3 channels and
    'bounding_boxes' holding 'classes', the dense labels, and 'boxes', one
    row per box: xmin and xmax times the decoded image's width, ymin and
    ymax times its height, in the order xmin, ymin, xmax, ymax, each
    product TensorFlow's float32 multiplication. *)
Theorem parse_tfrecord_fn_structure L example σ parsed encoded img
    xmin ymin xmax ymax labels :
  tf_parse_single_example L example feature_description = Ok parsed →
  parsed !! "image/encoded" = Some (TString encoded) →
  tf_decode_jpeg L encoded 3 = Ok img →
  parsed !! "image/object/bbox/xmin" = Some (TSparseFloat xmin) →
  parsed !! "image/object/bbox/xmax" = Some (TSparseFloat xmax) →
  parsed !! "image/object/bbox/ymin" = Some (TSparseFloat ymin) →
  parsed !! "image/object/bbox/ymax" = Some (TSparseFloat ymax) →
  parsed !! "image/object/class/label" = Some (TSparseInt64 labels) →
  length ymin = length xmin → length xmax = length xmin →
  length ymax = length xmin →
  ∃ abs_boxes,
    parse_tfrecord_fn L example σ
    = (Ok {| images := img;
             bounding_boxes := {| classes := labels; boxes := abs_boxes |} |},
       σ) ∧
    length abs_boxes = length xmin ∧
    ∀ i x0 y0 x1 y1,
      xmin !! i = Some x0 → ymin !! i = Some y0 →
      xmax !! i = Some x1 → ymax !! i = Some y1 →
      abs_boxes !! i
      = Some [ tf_multiply L x0 (float32_of_Z (img_width img));
               tf_multiply L y0 (float32_of_Z (img_height img));
               tf_multiply L x1 (float32_of_Z (img_width img));
               tf_multiply L y1 (float32_of_Z (img_height img)) ].
Proof.
  intros Hparse Henc Hdec Hxmin Hxmax Hymin Hymax Hlab Hy Hx Hw.
  destruct (stack_convert L img xmin ymin xmax ymax Hy Hx Hw)
    as (rel & abs & Hrel & Habs & Hlen & Hrows).
  exists abs. split; [| split; assumption].
  unfold parse_tfrecord_fn, bind, lift, ret, feature_getitem.
  rewrite Hparse, Henc. simpl. rewrite Hdec, Hxmin. simpl.
  rewrite Hxmax. simpl. rewrite Hymin. simpl. rewrite Hymax. simpl.
  rewrite Hlab. simpl. rewrite Hrel, Habs. reflexivity.
Qed.

Lemma parse_tfrecord_fn_structure_witness :
  ∃ abs_boxes,
    parse_tfrecord_fn demo_libs "val record" demo_state
    = (Ok {| images := demo_image;
             bounding_boxes := {| classes := [3]; boxes := abs_boxes |} |},
       demo_state) ∧
    length abs_boxes = 1%nat ∧
    ∀ i x0 y0 x1 y1,
      [dec 1 4] !! i = Some x0 → [dec 1 4] !! i = Some y0 →
      [dec 3 4] !! i = Some x1 → [dec 3 4] !! i = Some y1 →
      abs_boxes !! i
      = Some [ tf_multiply demo_libs x0 (float32_of_Z (img_width demo_image));
               tf_multiply demo_libs y0 (float32_of_Z (img_height demo_image));
               tf_multiply demo_libs x1 (float32_of_Z (img_width demo_image));
               tf_multiply demo_libs y1 (float32_of_Z (img_height demo_image)) ].
Proof.
  apply (parse_tfrecord_fn_structure demo_libs "val record" demo_state
           demo_parsed "jpeg" demo_image [dec 1 4] [dec 1 4] [dec 3 4]
           [dec 3 4] [3]);
    reflexivity.
Defined.

(** The demo record's box: a quarter and three quarters of 416 pixels. *)
Example parse_demo :
  fst (parse_tfrecord_fn demo_libs "val record" demo_state)
  = Ok {| images := demo_image;
          bounding_boxes :=
            {| classes := [3];
               boxes := [ [ float32_of_Z 104; float32_of_Z 104;
                            float32_of_Z 312; float32_of_Z 312 ] ] |} |}.
Proof. vm_compute. reflexivity. Qed.

(** * [main_flow.py] *)

(** ** [start]: the environment check *)

Lemma start_run σ :
  start σ
  = match first_failure (environ σ) required_env with
    | None => (Ok tt, set_transition (Some S_augment_data_train_model) σ)
    | Some e => (Raise e, σ)
    end.
Proof.
  unfold start, bind, os_environ, assert_str, required_env, first_failure,
    ret, raise.
  repeat (match goal with
          | |- context [environ σ !! ?k] => destruct (environ σ !! k) as [? |]
          end; [| reflexivity];
          match goal with
          | |- context [String.eqb ?v ""] => destruct (String.eqb v "")
          end; [reflexivity | cbv beta iota]).
  reflexivity.
Qed.

Lemma first_failure_none env names :
  first_failure env names = None ↔ ∀ k, k ∈ names → env_set env k.
Proof.
  induction names as [| name names IH]; simpl.
  - split; [| reflexivity]. intros _ k Hk. now apply elem_of_nil in Hk.
  - destruct (env !! name) as [v |] eqn:Hv.
    + destruct (String.eqb_spec v "") as [-> | Hne].
      * split; [discriminate |]. intros H.
        destruct (H name) as (v & Hv' & Hne); [left |]. congruence.
      * rewrite IH. split.
        -- intros H k [-> | Hk]%elem_of_cons; [now exists v | now apply H].
        -- intros H k Hk. apply H. now right.
    + split; [discriminate |]. intros H.
      destruct (H name) as (v & Hv' & _); [left |]. congruence.
Qed.

Lemma not_env_set env k :
  ¬ env_set env k ↔ env !! k = None ∨ env !! k = Some "".
Proof.
  unfold env_set. split.
  - intros H. destruct (env !! k) as [v |]; [| now left].
    right. destruct (String.eqb_spec v "") as [-> | Hne]; [reflexivity |].
    exfalso. apply H. eauto.
  - intros [H | H] (v & Hv & Hne); congruence.
Qed.

Lemma first_failure_some env names :
  (∃ e, first_failure env names = Some e)
  ↔ ∃ k, k ∈ names ∧ (env !! k = None ∨ env !! k = Some "").
Proof.
  split.
  - intros [e He]. induction names as [| name names IH]; simpl in He;
      [discriminate |].
    destruct (env !! name) as [v |] eqn:Hv.
    + destruct (String.eqb_spec v "") as [-> | Hne].
      * exists name. split; [left | now right].
      * destruct (IH He) as (k & Hk & Hbad). exists k. split; [now right | auto].
    + exists name. split; [left | now left].
  - intros (k & Hk & Hbad).
    destruct (first_failure env names) as [e |] eqn:He; [eauto |].
    rewrite first_failure_none in He. apply not_env_set in Hbad.
    exfalso. auto.
Qed.

Lemma run_step_raise L P s σ e σ' :
  step_body L P s (set_transition None σ) = (Raise e, σ') →
  run_step L P s σ = (Raise e, σ').
Proof. intros H. unfold run_step, bind, modify. now rewrite H. Qed.

Lemma run_step_ok L P s σ σ' :
  step_body L P s (set_transition None σ) = (Ok tt, σ') →
  run_step L P s σ = (Ok (transition σ'), σ').
Proof. intros H. unfold run_step, bind, modify. now rewrite H. Qed.

(** C10: start raises exactly when one of the seven variables is unset
    or set to the empty string; when it raises, the run stops with start
    as the only stage executed; when all seven are set, start records the
    transition to augment_data_train_model, which the run executes next. *)
Theorem start_fails_fast L P σ fuel :
  ((∃ e, fst (start σ) = Raise e)
   ↔ ∃ k, k ∈ required_env ∧
       (environ σ !! k = None ∨ environ σ !! k = Some ""))
  ∧ (∀ e, fst (start σ) = Raise e →
       fst (main_flow L P (S fuel) σ) = ([S_start], Failed S_start e))
  ∧ ((∀ k, k ∈ required_env → env_set (environ σ) k) →
       start σ = (Ok tt, set_transition (Some S_augment_data_train_model) σ)
       ∧ ∃ rest, fst (fst (main_flow L P (S (S fuel)) σ))
                 = S_start :: S_augment_data_train_model :: rest).
Proof.
  split; [| split].
  - rewrite <- first_failure_some, start_run.
    destruct (first_failure (environ σ) required_env) as [e |]; simpl.
    + split; eauto.
    + split; intros [e He]; discriminate.
  - intros e He. unfold main_flow. simpl.
    assert (Hs : step_body L P S_start (set_transition None σ)
                 = (Raise e, set_transition None σ)).
    { cbn [step_body]. rewrite start_run in *.
      change (environ (set_transition None σ)) with (environ σ).
      destruct (first_failure (environ σ) required_env); cbn [fst] in He;
        congruence. }
    now rewrite (run_step_raise _ _ _ _ _ _ Hs).
  - intros Hall. apply first_failure_none in Hall.
    split; [rewrite start_run; now rewrite Hall |].
    unfold main_flow.
    assert (Hs : step_body L P S_start (set_transition None σ)
                 = (Ok tt, set_transition (Some S_augment_data_train_model)
                             (set_transition None σ))).
    { cbn [step_body]. rewrite start_run.
      change (environ (set_transition None σ)) with (environ σ).
      now rewrite Hall. }
    cbn [run_from]. rewrite (run_step_ok _ _ _ _ _ Hs). cbn [transition set_transition].
    destruct (run_step L P S_augment_data_train_model _) as [[[t |] | e] σ1].
    + destruct (run_from L P fuel t σ1) as [[tr o] σ2]. eauto.
    + eauto.
    + eauto.
Qed.

(** ** The order of the stages *)

Lemma ends_in_bind {A B} t (m : M A) (k : A → M B) :
  (∀ a, ends_in t (k a)) → ends_in t (bind m k).
Proof.
  intros Hk σ b σ' H. apply bind_ok_inv in H as (a & σ1 & _ & H).
  exact (Hk a _ _ _ H).
Qed.

Lemma ends_in_self_next s : ends_in (Some s) (self_next s).
Proof. intros σ a σ' H. apply modify_ok_inv in H. now subst. Qed.

Ltac ends := repeat (apply ends_in_bind; intros ?); apply ends_in_self_next.

Lemma start_ends : ends_in (Some S_augment_data_train_model) start.
Proof. unfold start. ends. Qed.

Lemma augment_ends L P :
  ends_in (Some S_evaluate_model) (augment_data_train_model L P).
Proof. unfold augment_data_train_model. ends. Qed.

Lemma evaluate_ends L : ends_in (Some S_deploy) (evaluate_model L).
Proof. unfold evaluate_model. ends. Qed.

Lemma deploy_ends L P : ends_in (Some S_end) (deploy L P).
Proof. unfold deploy. ends. Qed.

(** A step that returns hands the run to its successor. *)
Lemma step_transition L P s σ t σ' :
  run_step L P s σ = (Ok t, σ') → t = successor s.
Proof.
  unfold run_step. intros H. do 2 inv_bind H. inv_prim H.
  match goal with
  | Hb : step_body _ _ _ _ = _ |- _ => rename Hb into Hbody
  end.
  destruct s; cbn [step_body successor] in *.
  - exact (start_ends _ _ _ Hbody).
  - exact (augment_ends L P _ _ _ Hbody).
  - exact (evaluate_ends L _ _ _ Hbody).
  - exact (deploy_ends L P _ _ _ Hbody).
  - unfold end_step in Hbody. now inv_prim Hbody.
Qed.

(** The run from a stage executes a prefix of [rest_from], and all of it
    when it finishes. *)
Lemma rest_from_successor s :
  rest_from s
  = s :: match successor s with Some s' => rest_from s' | None => [] end.
Proof. now destruct s. Qed.

Lemma run_from_trace L P fuel :
  ∀ s σ,
    (length (rest_from s) ≤ fuel)%nat →
    let r := run_from L P fuel s σ in
    r.1.2 ≠ OutOfFuel ∧
    r.1.1 `prefix_of` rest_from s ∧
    (r.1.2 = Finished → r.1.1 = rest_from s) ∧
    (∀ s' e, r.1.2 = Failed s' e → last r.1.1 = Some s').
Proof.
  induction fuel as [| fuel IH]; intros s σ Hfuel.
  - destruct s; simpl in Hfuel; lia.
  - cbn [run_from]. destruct (run_step L P s σ) as [[t | e] σ1] eqn:Hstep.
    + apply step_transition in Hstep. subst t.
      rewrite (rest_from_successor s) in *.
      destruct (successor s) as [s' |] eqn:Hs.
      * specialize (IH s' σ1). simpl in Hfuel.
        destruct (run_from L P fuel s' σ1) as [[tr o] σ2]. simpl in *.
        destruct IH as (Hno & Hpre & Hfin & Hfail); [lia |].
        repeat split.
        -- exact Hno.
        -- now apply prefix_cons.
        -- intros Ho. now rewrite Hfin.
        -- intros s0 e Ho. specialize (Hfail _ _ Ho).
           destruct tr; [discriminate | exact Hfail].
      * simpl. repeat split; try discriminate. reflexivity.
    + simpl. repeat split; try discriminate.
      * rewrite (rest_from_successor s). apply prefix_cons, prefix_nil.
      * now intros s' e' [= <- _].
Qed.

Lemma pipeline_NoDup : NoDup pipeline.
Proof. apply (bool_decide_unpack _). vm_compute. exact I. Qed.

(** C3: the stages run in the order start, augment_data_train_model,
    evaluate_model, deploy, end. A step that returns hands the run to its
    one successor in that order; a run (given fuel for five steps or more)
    executes a prefix of the order, each stage at most once, all five
    when it finishes, and up to the failing stage when a step raises. *)
Theorem stages_in_order L P σ extra :
  (∀ s t σ1 σ2, run_step L P s σ1 = (Ok t, σ2) → t = successor s)
  ∧ (main_flow L P (5 + extra) σ).1.2 ≠ OutOfFuel
  ∧ (main_flow L P (5 + extra) σ).1.1 `prefix_of` pipeline
  ∧ ((main_flow L P (5 + extra) σ).1.2 = Finished →
     (main_flow L P (5 + extra) σ).1.1 = pipeline)
  ∧ (∀ s e, (main_flow L P (5 + extra) σ).1.2 = Failed s e →
       last (main_flow L P (5 + extra) σ).1.1 = Some s)
  ∧ NoDup (main_flow L P (5 + extra) σ).1.1.
Proof.
  split; [intros s t σ1 σ2; apply step_transition |].
  unfold main_flow.
  destruct (run_from_trace L P (5 + extra) S_start σ)
    as (Hno & Hpre & Hfin & Hfail); [simpl; lia |].
  change (rest_from S_start) with pipeline in *.
  repeat split; try assumption.
  destruct Hpre as [k Hk]. pose proof pipeline_NoDup as Hnd.
  rewrite Hk in Hnd. now apply NoDup_app in Hnd as [? _].
Qed.

Example demo_run :
  (main_flow demo_libs default_params 5 demo_state).1 = (pipeline, Finished).
Proof. vm_compute. reflexivity. Qed.

(** ** Artifacts from one step to the next *)

#[export] Hint Extern 2 (preserves _ (setattr _ _)) =>
  first [ apply preserves_setattr_other; discriminate
        | apply preserves_modify; intros; reflexivity ] : frame.
#[export] Hint Extern 2 (preserves _ (modify _)) =>
  apply preserves_modify; intros; reflexivity : frame.
#[export] Hint Extern 2 (preserves _ (self_next _)) =>
  apply preserves_modify; intros; reflexivity : frame.
#[export] Hint Extern 3 (preserves _ (convert_format_keras_to_wandb _ _ _)) =>
  apply preserves_part, convert_frame : frame.
#[export] Hint Extern 3 (preserves _ (parse_tfrecord_fn _ _)) =>
  apply preserves_part, parse_frame : frame.

Lemma evaluate_example_frame L config weights record k :
  k ∈ handed_off →
  preserves (fun σ => self σ !! k) (evaluate_example L config weights record).
Proof.
  intros Hk. unfold handed_off in Hk.
  repeat (apply elem_of_cons in Hk as [-> | Hk]);
    [| | | now apply elem_of_nil in Hk];
    unfold evaluate_example; frame.
Qed.

Lemma evaluate_model_frame L k :
  k ∈ handed_off → preserves (fun σ => self σ !! k) (evaluate_model L).
Proof.
  intros Hk. unfold evaluate_model.
  repeat (apply preserves_bind; [| intros ?]); auto with frame.
  apply preserves_map_m. intros record.
  now apply evaluate_example_frame.
Qed.

Lemma load_dataset_frame L file batch_size testing :
  preserves id (load_dataset L file batch_size testing).
Proof.
  unfold load_dataset. frame. apply preserves_map_m. intros. apply parse_frame.
Qed.

Lemma load_dataset_ok_inv L file batch_size testing σ ds σ' :
  load_dataset L file batch_size testing σ = (Ok ds, σ') → σ' = σ.
Proof.
  intros H. pose proof (load_dataset_frame L file batch_size testing σ) as E.
  rewrite H in E. exact E.
Qed.

Lemma download_from_s3_ok_inv s3_path local_path σ u σ' :
  download_from_s3 s3_path local_path σ = (Ok u, σ') →
  ∃ blob, s3 σ !! s3_path = Some blob ∧
    σ' = set_files (insert local_path blob) σ.
Proof.
  unfold download_from_s3, write_file. intros H. inv_bind H. inv_prim H.
  eauto.
Qed.

Lemma s3_put_ok_inv L key data σ url σ' :
  s3_put L key data σ = (Ok url, σ') →
  url = s3_run_url L key ∧ σ' = set_s3 (insert (s3_run_url L key) data) σ.
Proof. unfold s3_put. intros H. inv_bind H. now inv_prim H. Qed.

Ltac inv_step H :=
  first
    [ apply download_from_s3_ok_inv in H; destruct H as (? & H & ->)
    | apply load_dataset_ok_inv in H; subst
    | apply s3_put_ok_inv in H; destruct H as [-> ->]
    | inv_prim H ].

Ltac inv_run H :=
  repeat (let a := fresh "a" in
          let σ1 := fresh "σ" in
          let H1 := fresh "Hstep" in
          apply bind_ok_inv in H; destruct H as (a & σ1 & H1 & H);
          inv_step H1);
  inv_step H.

(** Projections of updated states, and lookups in what was just set. *)
Ltac norm_state :=
  cbn [self s3 files environ endpoints wandb_log utils_class_mapping now_ms
       transition set_self set_s3 set_files set_endpoints set_wandb_log
       set_transition] in *;
  repeat match goal with
         | H : context [<[?k := _]> _ !! ?k] |- _ =>
             rewrite lookup_insert_eq in H
         | H : context [<[_ := _]> _ !! _] |- _ =>
             rewrite lookup_insert_ne in H by discriminate
         | H : Some _ = Some _ |- _ => injection H as H
         | H : as_str (PStr _) = Ok _ |- _ => injection H as H
         | H : setitem (PDict _) _ _ = Ok _ |- _ => injection H as H
         | H : ?x = ?y |- _ => first [is_var x; subst x | is_var y; subst y]
         end.

(** What a successful [augment_data_train_model] leaves behind. *)
Lemma augment_writes L P σ σ' :
  augment_data_train_model L P σ = (Ok tt, σ') →
  ∃ archive json weights,
    self σ' !! "s3_path" = Some (PStr (s3_run_url L "model-0.0001.tar.gz")) ∧
    s3 σ' !! s3_run_url L "model-0.0001.tar.gz" = Some archive ∧
    self σ' !! "model"
    = Some (PDict [("model", PStr json); ("model_weights", weights)]) ∧
    self σ' !! "train_tfrecord_file" = Some (PStr "train_leaves.tfrecord").
Proof.
  unfold augment_data_train_model, write_file. intros H.
  destruct (TESTING P); inv_run H;
    try match goal with
        | Hif : bind _ _ _ = (Ok _, _) |- _ => inv_run Hif
        end;
    do 3 eexists; cbn [self s3 set_self set_s3 set_files set_transition];
    repeat split;
    repeat first [ rewrite lookup_insert_eq; reflexivity
                 | rewrite lookup_insert_ne by discriminate ].
Qed.





(** X2: evaluate_model leaves self.s3_path, self.config and
    self.train_tfrecord_file as they were however it ends, also when it
    raises part of the way through its examples. *)
Lemma evaluate_model_leaves L σ :
  self (evaluate_model L σ).2 !! "s3_path" = self σ !! "s3_path" ∧
  self (evaluate_model L σ).2 !! "config" = self σ !! "config" ∧
  self (evaluate_model L σ).2 !! "train_tfrecord_file"
  = self σ !! "train_tfrecord_file".
Proof.
  assert (H : ∀ k, k ∈ handed_off →
                self (evaluate_model L σ).2 !! k = self σ !! k).
  { intros k Hk. exact (evaluate_model_frame L k Hk σ). }
  unfold handed_off in H.
  split; [| split]; apply H; set_solver.
Qed.

(** ** The endpoint of [deploy] *)

Lemma deploy_test_request_endpoints L name :
  preserves endpoints (deploy_test_request L name).
Proof. unfold deploy_test_request. frame. Qed.

Lemma parse_ok_inv L example σ ds σ' :
  parse_tfrecord_fn L example σ = (Ok ds, σ') → σ' = σ.
Proof.
  intros H. pose proof (parse_frame L example σ) as E.
  rewrite H in E. exact E.
Qed.

Lemma endpoint_invoke_ok_inv L name img σ r σ' :
  endpoint_invoke L name img σ = (Ok r, σ') → σ' = σ.
Proof.
  intros H. pose proof (preserves_endpoint_invoke id L name img σ) as E.
  rewrite H in E. exact E.
Qed.

Lemma endpoint_invoke_ok L name img σ r σ' :
  endpoint_invoke L name img σ = (Ok r, σ') →
  σ' = σ ∧
  ∃ model_data blob,
    endpoints σ !! name = Some model_data ∧
    s3 σ !! model_data = Some blob ∧
    sagemaker_invoke L blob img = Ok r.
Proof.
  unfold endpoint_invoke.
  destruct (endpoints σ !! name) as [md |] eqn:Hmd; [| discriminate].
  destruct (s3 σ !! md) as [blob |] eqn:Hblob; [| discriminate].
  intros [= H <-]. split; [reflexivity |]. exists md, blob. auto.
Qed.

(** The response of the endpoint is kept in [self.result]. *)
Lemma deploy_test_request_result L name σ σ' :
  deploy_test_request L name σ = (Ok tt, σ') → is_Some (self σ' !! "result").
Proof.
  unfold deploy_test_request. intros H.
  repeat (let a := fresh "a" in
          let σ1 := fresh "σ" in
          let H1 := fresh "Hstep" in
          apply bind_ok_inv in H; destruct H as (a & σ1 & H1 & H);
          first [ apply parse_ok_inv in H1; subst
                | apply endpoint_invoke_ok_inv in H1; subst
                | inv_prim H1 ]).
  match type of H with
  | (if ?b then _ else _) _ = _ => destruct b
  end; inv_run H;
    cbn [self set_self];
    repeat first [ rewrite lookup_insert_eq; eauto
                 | rewrite lookup_insert_ne by discriminate ].
Qed.

(** The test request of [deploy]: the image of the first training record
    is sent to the endpoint, and the first prediction of the response is
    what [self.result] holds afterwards. *)
Lemma deploy_test_request_ok L name σ σ' :
  deploy_test_request L name σ = (Ok tt, σ') →
  ∃ file cfg content record rest example img model_data blob response
    predictions result0,
    self σ !! "train_tfrecord_file" = Some (PStr file) ∧
    self σ !! "config" = Some cfg ∧
    files σ !! file = Some content ∧
    tf_records L content = Ok (record :: rest) ∧
    parse_tfrecord_fn L record σ = (Ok example, σ) ∧
    kcv_resize L cfg example = Ok img ∧
    endpoints σ !! name = Some model_data ∧
    s3 σ !! model_data = Some blob ∧
    sagemaker_invoke L blob img = Ok response ∧
    getitem response "predictions" = Ok predictions ∧
    getidx predictions 0 = Ok result0 ∧
    self σ' !! "result" = Some result0.
Proof.
  unfold deploy_test_request. intros H.
  repeat (let a := fresh "a" in
          let σ1 := fresh "σ" in
          let H1 := fresh "Hstep" in
          apply bind_ok_inv in H; destruct H as (a & σ1 & H1 & H);
          first [ pose proof (parse_ok_inv _ _ _ _ _ H1); subst σ1
                | apply endpoint_invoke_ok in H1;
                  destruct H1 as (-> & ? & ? & ? & ? & H1)
                | inv_prim H1 ]).
  assert (Hres : self σ' !! "result" = Some a11).
  { match type of H with
    | (if ?b then _ else _) _ = _ => destruct b
    end; inv_run H; cbn [self set_self];
      repeat first [ rewrite lookup_insert_eq; reflexivity
                   | rewrite lookup_insert_ne by discriminate ]. }
  clear H.
  repeat match goal with
         | Hs : as_str ?v = Ok _ |- _ =>
             destruct v; try discriminate Hs; injection Hs as ->
         | Hs : match ?l with [] => _ | _ :: _ => _ end = Ok _ |- _ =>
             destruct l; try discriminate Hs; injection Hs as ->
         end.
  do 12 eexists. repeat (split; [eassumption |]). exact Hres.
Qed.

(** A successful [deploy]: the endpoint is created from [self.s3_path]
    under a name that was free, asked once while it is live, and deleted. *)
Lemma deploy_ok L P σ σ' :
  deploy L P σ = (Ok tt, σ') →
  ∃ url archive σ1 img response predictions result0,
    self σ !! "s3_path" = Some (PStr url) ∧
    s3 σ !! url = Some archive ∧
    endpoints σ !! endpoint_name (now_ms σ) = None ∧
    deploy_test_request L (endpoint_name (now_ms σ))
      (set_endpoints (insert (endpoint_name (now_ms σ)) url) σ)
    = (Ok tt, σ1) ∧
    endpoints σ1 = <[endpoint_name (now_ms σ) := url]> (endpoints σ) ∧
    sagemaker_invoke L archive img = Ok response ∧
    getitem response "predictions" = Ok predictions ∧
    getidx predictions 0 = Ok result0 ∧
    self σ1 !! "result" = Some result0 ∧
    σ' = set_transition (Some S_end)
           (set_endpoints (delete (endpoint_name (now_ms σ))) σ1).
Proof.
  intros H. unfold deploy in H. do 5 inv_bind H. inv_bind H.
  match goal with
  | Hr : deploy_test_request _ ?name ?σa = (Ok ?u, _) |- _ =>
      destruct u;
      pose proof (deploy_test_request_endpoints L name σa) as Hfr;
      rewrite Hr in Hfr; cbn [snd endpoints set_endpoints] in Hfr;
      pose proof (deploy_test_request_ok _ _ _ _ Hr)
        as (file & cfg & content & record & rest & example & img & md & blob
            & response & predictions & result0 & _ & _ & _ & _ & _ & _
            & Hmd & Hblob & Hinv & Hpred & Hres0 & Hres)
  end.
  inv_run H.
  cbn [endpoints s3 set_endpoints] in Hmd, Hblob.
  rewrite lookup_insert_eq in Hmd. injection Hmd as <-.
  match goal with
  | Hs : as_str ?v = Ok _ |- _ =>
      destruct v; try discriminate Hs; injection Hs as ->
  end.
  do 7 eexists. repeat (split; [eassumption || reflexivity |]).
  reflexivity.
Qed.

(** C1, amended: a successful deploy step leaves no endpoint of its own.
    The step creates an endpoint from self.s3_path under a name that was
    free, sends it one test request while it is live, and deletes it
    before the step ends: the live endpoints after the step are those
    from before it. What the step hands on is the first prediction of
    the endpoint's response, in self.result, and the transition to end. *)
Theorem deploy_deletes_endpoint L P σ σ' :
  deploy L P σ = (Ok tt, σ') →
  ∃ url archive σ1 img response predictions result0,
    self σ !! "s3_path" = Some (PStr url) ∧
    s3 σ !! url = Some archive ∧
    endpoints σ !! endpoint_name (now_ms σ) = None ∧
    create_endpoint (endpoint_name (now_ms σ)) url σ
    = (Ok tt, set_endpoints (insert (endpoint_name (now_ms σ)) url) σ) ∧
    deploy_test_request L (endpoint_name (now_ms σ))
      (set_endpoints (insert (endpoint_name (now_ms σ)) url) σ)
    = (Ok tt, σ1) ∧
    endpoints σ1 !! endpoint_name (now_ms σ) = Some url ∧
    sagemaker_invoke L archive img = Ok response ∧
    getitem response "predictions" = Ok predictions ∧
    getidx predictions 0 = Ok result0 ∧
    self σ' !! "result" = Some result0 ∧
    σ' = set_transition (Some S_end)
           (set_endpoints (delete (endpoint_name (now_ms σ))) σ1) ∧
    endpoints σ' !! endpoint_name (now_ms σ) = None ∧
    endpoints σ' = endpoints σ ∧
    transition σ' = Some S_end.
Proof.
  intros H.
  destruct (deploy_ok _ _ _ _ H)
    as (url & archive & σ1 & img & response & predictions & result0 & Hpath
        & Harchive & Hfree & Hreq & Hlive & Hinv & Hpred & Hres0 & Hres & ->).
  exists url, archive, σ1, img, response, predictions, result0.
  cbn [endpoints self transition set_endpoints set_transition].
  split; [exact Hpath |]. split; [exact Harchive |]. split; [exact Hfree |].
  split; [unfold create_endpoint; now rewrite Harchive, Hfree |].
  split; [exact Hreq |].
  split; [rewrite Hlive; apply lookup_insert_eq |].
  split; [exact Hinv |]. split; [exact Hpred |]. split; [exact Hres0 |].
  split; [exact Hres |]. split; [reflexivity |].
  split; [apply lookup_delete_eq |].
  split; [| reflexivity].
  rewrite Hlive, delete_insert_eq. now apply delete_id.
Qed.

Lemma deploy_deletes_endpoint_witness :
  ∃ url archive σ1 img response predictions result0,
    self demo_after_evaluate !! "s3_path" = Some (PStr url) ∧
    s3 demo_after_evaluate !! url = Some archive ∧
    endpoints demo_after_evaluate
      !! endpoint_name (now_ms demo_after_evaluate) = None ∧
    create_endpoint (endpoint_name (now_ms demo_after_evaluate)) url
      demo_after_evaluate
    = (Ok tt,
       set_endpoints (insert (endpoint_name (now_ms demo_after_evaluate)) url)
         demo_after_evaluate) ∧
    deploy_test_request demo_libs (endpoint_name (now_ms demo_after_evaluate))
      (set_endpoints (insert (endpoint_name (now_ms demo_after_evaluate)) url)
         demo_after_evaluate)
    = (Ok tt, σ1) ∧
    endpoints σ1 !! endpoint_name (now_ms demo_after_evaluate) = Some url ∧
    sagemaker_invoke demo_libs archive img = Ok response ∧
    getitem response "predictions" = Ok predictions ∧
    getidx predictions 0 = Ok result0 ∧
    self demo_after_deploy !! "result" = Some result0 ∧
    demo_after_deploy
    = set_transition (Some S_end)
        (set_endpoints (delete (endpoint_name (now_ms demo_after_evaluate)))
           σ1) ∧
    endpoints demo_after_deploy
      !! endpoint_name (now_ms demo_after_evaluate) = None ∧
    endpoints demo_after_deploy = endpoints demo_after_evaluate ∧
    transition demo_after_deploy = Some S_end.
Proof.
  apply (deploy_deletes_endpoint demo_libs default_params
           demo_after_evaluate demo_after_deploy).
  vm_compute. reflexivity.
Defined.

(** A run that finishes all five stages, and whose deploy step returns,
    with no endpoint live at the end of the step or of the run: the one
    the step created, detection-1720463605573-endpoint, is gone. *)
Lemma deploy_endpoint_not_live :
  (main_flow demo_libs default_params 5 demo_state).1 = (pipeline, Finished) ∧
  deploy demo_libs default_params demo_after_evaluate
  = (Ok tt, demo_after_deploy) ∧
  endpoint_name (now_ms demo_after_evaluate)
  = "detection-1720463605573-endpoint" ∧
  endpoints demo_after_deploy !! "detection-1720463605573-endpoint" = None ∧
  endpoints (main_flow demo_libs default_params 5 demo_state).2 = ∅.
Proof.
  split; [vm_compute; reflexivity |].
  split; [vm_compute; reflexivity |].
  split; [vm_compute; reflexivity |].
  split; vm_compute; reflexivity.
Qed.

(** ** The hand-off between the steps *)



(** * Further properties *)

(** ** [convert_format_keras_to_wandb]: when it returns *)

Lemma py_int_ok_finite x z : py_int x = Ok z → finite_num x = true.
Proof. destruct x as [? | [s | s | | s m e]]; simpl; now intros. Qed.

Lemma py_round_ok_finite f p : py_round f = Ok p → is_finite f = true.
Proof. destruct f; simpl; now intros. Qed.

Lemma convert_box_accepts b_i box classes_list confidence_list σ c :
  box_accepted box →
  classes_list !! b_i = Some c →
  class_in (utils_class_mapping σ) c →
  (confidence_given confidence_list = true →
   ∃ cf, default [] confidence_list !! b_i = Some cf ∧ confidence_ok cf = true) →
  ∃ d, convert_box b_i box classes_list confidence_list σ = (Ok d, σ).
Proof.
  intros (x0 & x1 & x2 & x3 & H0 & H1 & H2 & H3 & F0 & F1 & F2 & F3)
    Hc (k & Hk & name & Hname) Hconf.
  apply py_int_finite in F0 as [z0 F0]. apply py_int_finite in F1 as [z1 F1].
  apply py_int_finite in F2 as [z2 F2]. apply py_int_finite in F3 as [z3 F3].
  unfold convert_box.
  repeat first
    [ erewrite bind_run; [| unfold lift; f_equal; apply index_lookup; eassumption]
    | erewrite bind_run; [| unfold lift; f_equal; eassumption] ].
  destruct (confidence_given confidence_list).
  - destruct Hconf as (cf & Hcf & Hok); [reflexivity |].
    apply confidence_ok_round in Hok as (f & p & Hf & Hp).
    repeat first
      [ erewrite bind_run; [| unfold lift; f_equal; apply index_lookup; eassumption]
      | erewrite bind_run; [| unfold lift; f_equal; eassumption] ].
    erewrite bind_run;
      [| unfold class_mapping_getitem; rewrite Hname; reflexivity].
    eexists. reflexivity.
  - erewrite bind_run;
      [| unfold class_mapping_getitem; rewrite Hname; reflexivity].
    eexists. reflexivity.
Qed.

Lemma convert_loop_accepts box_list :
  ∀ b_i classes_list confidence_list all_boxes σ,
    (∀ j box, box_list !! j = Some box →
       box_accepted box ∧
       (∃ c, classes_list !! (b_i + j)%nat = Some c ∧
             class_in (utils_class_mapping σ) c) ∧
       (confidence_given confidence_list = true →
        ∃ cf, default [] confidence_list !! (b_i + j)%nat = Some cf ∧
              confidence_ok cf = true)) →
    ∃ out,
      convert_loop b_i box_list classes_list confidence_list all_boxes σ
        = (Ok out, σ).
Proof.
  induction box_list as [| box rest IH]; intros b_i cl conf acc σ Hwf; simpl.
  - eexists. reflexivity.
  - destruct (Hwf 0%nat box eq_refl) as (Hbox & (c & Hc & Hin) & Hcf).
    rewrite Nat.add_0_r in Hc, Hcf.
    destruct (convert_box_accepts b_i box cl conf σ c) as [d Hd]; auto.
    erewrite bind_run; [| exact Hd].
    apply IH. intros j b Hj. rewrite Nat.add_succ_l, <- Nat.add_succ_r.
    now apply (Hwf (S j)).
Qed.

Lemma convert_accepted_iff box_list classes_list confidence_list σ :
  (∃ out,
     convert_format_keras_to_wandb box_list classes_list confidence_list σ
     = (Ok out, σ))
  ↔ accepted (utils_class_mapping σ) box_list classes_list confidence_list.
Proof.
  split.
  - intros [out Hrun] i box Hbox.
    apply convert_ok in Hrun as (_ & _ & Hentries).
    destruct (Hentries _ _ Hbox) as (d & _ & Hconv).
    apply convert_box_ok_inv in Hconv
      as (_ & x0 & x1 & x2 & x3 & c & name & H0 & H1 & H2 & H3
          & I0 & I1 & I2 & I3 & Hc & Hid & Hname & _ & Hcap).
    split; [| split].
    + exists x0, x1, x2, x3.
      repeat split; try assumption; eapply py_int_ok_finite; eassumption.
    + exists c. split; [exact Hc |]. exists (class_id d). eauto.
    + intros Hgiven. unfold caption_of in Hcap. rewrite Hgiven in Hcap.
      destruct Hcap as (cf & f & p & Hcf & Hf & Hp & _).
      exists cf. split; [exact Hcf |]. unfold confidence_ok. rewrite Hf.
      eapply py_round_ok_finite. eassumption.
  - intros Hacc. apply convert_loop_accepts. intros j box Hj. simpl.
    exact (Hacc j box Hj).
Qed.

(** X3: the function returns a list exactly when, at the index of every
    box, the box has four leading numbers that are neither NaN nor
    infinite, classes_list has an entry whose integer value is a key of
    class_mapping, and, for a confidence list that is not empty, the
    list has an entry whose percentage 100 * float(c) is finite. Longer
    boxes, more classes or more confidences than boxes do not matter. *)
Theorem convert_returns_iff box_list classes_list confidence_list σ :
  (∃ out,
     convert_format_keras_to_wandb box_list classes_list confidence_list σ
     = (Ok out, σ))
  ↔ accepted (utils_class_mapping σ) box_list classes_list confidence_list.
Proof.
  split.
  - intros [out Hrun] i box Hbox.
    apply convert_ok in Hrun as (_ & _ & Hentries).
    destruct (Hentries _ _ Hbox) as (d & _ & Hconv).
    apply convert_box_ok_inv in Hconv
      as (_ & x0 & x1 & x2 & x3 & c & name & H0 & H1 & H2 & H3
          & I0 & I1 & I2 & I3 & Hc & Hid & Hname & _ & Hcap).
    split; [| split].
    + exists x0, x1, x2, x3.
      repeat split; try assumption; eapply py_int_ok_finite; eassumption.
    + exists c. split; [exact Hc |]. exists (class_id d). eauto.
    + intros Hgiven. unfold caption_of in Hcap. rewrite Hgiven in Hcap.
      destruct Hcap as (cf & f & p & Hcf & Hf & Hp & _).
      exists cf. split; [exact Hcf |]. unfold confidence_ok. rewrite Hf.
      eapply py_round_ok_finite. eassumption.
  - intros Hacc. apply convert_loop_accepts. intros j box Hj. simpl.
    exact (Hacc j box Hj).
Qed.

(** ** Class ids *)

Lemma class_mapping_keys k : is_Some (class_mapping !! k) ↔ 1 ≤ k ≤ 30.
Proof.
  split.
  - intros [name H]. apply elem_of_list_to_map_2 in H.
    assert (Hall : Forall (fun kv => 1 ≤ kv.1 ≤ 30) class_mapping_items)
      by (repeat (constructor; [simpl; lia |]); constructor).
    rewrite Forall_forall in Hall. exact (Hall _ H).
  - intros Hk. destruct k as [| p | p]; try lia.
    repeat match goal with
           | q : positive |- _ => destruct q; try lia
           end; vm_compute; eauto.
Qed.

(** X4: with the table of utils.py, every entry the function returns has
    a class id from 1 to 30; and when the class at the index of some box
    has an integer value outside 1 to 30, the call raises instead of
    returning. *)
Theorem convert_class_ids box_list classes_list confidence_list σ :
  utils_class_mapping σ = class_mapping →
  (∀ out σ' i d,
     convert_format_keras_to_wandb box_list classes_list confidence_list σ
       = (Ok out, σ') →
     out !! i = Some d →
     1 ≤ class_id d ≤ 30) ∧
  (∀ i box c k,
     box_list !! i = Some box →
     classes_list !! i = Some c →
     py_int c = Ok k →
     ¬ (1 ≤ k ≤ 30) →
     ∃ e, fst (convert_format_keras_to_wandb box_list classes_list
                 confidence_list σ) = Raise e).
Proof.
  intros Hcm. split.
  - intros out σ' i d Hrun Hd.
    destruct (convert_caption _ _ _ _ _ _ _ _ Hrun Hd) as (name & Hname & _).
    rewrite Hcm in Hname. apply class_mapping_keys. eauto.
  - intros i box c k Hbox Hc Hint Hout.
    destruct (convert_format_keras_to_wandb box_list classes_list
                confidence_list σ) as [[out | e] σ'] eqn:Hrun;
      [| now exists e].
    exfalso. apply Hout.
    apply convert_ok in Hrun as (_ & _ & Hentries).
    destruct (Hentries _ _ Hbox) as (d & _ & Hconv).
    apply convert_box_ok_inv in Hconv
      as (_ & x0 & y0 & x1 & y1 & c' & name & _ & _ & _ & _ & _ & _ & _ & _
          & Hc' & Hint' & Hname & _).
    rewrite Hc in Hc'. injection Hc' as <-.
    rewrite Hint in Hint'. injection Hint' as ->.
    rewrite Hcm in Hname. apply class_mapping_keys. eauto.
Qed.

Lemma convert_class_ids_witness :
  (∀ out σ' i d,
     convert_format_keras_to_wandb demo_box_list demo_classes_list
       (Some demo_confidence_list) demo_state = (Ok out, σ') →
     out !! i = Some d →
     1 ≤ class_id d ≤ 30) ∧
  (∀ i box c k,
     demo_box_list !! i = Some box →
     demo_classes_list !! i = Some c →
     py_int c = Ok k →
     ¬ (1 ≤ k ≤ 30) →
     ∃ e, fst (convert_format_keras_to_wandb demo_box_list demo_classes_list
                 (Some demo_confidence_list) demo_state) = Raise e).
Proof.
  apply (convert_class_ids demo_box_list demo_classes_list
           (Some demo_confidence_list) demo_state).
  reflexivity.
Defined.

(** A class of 0 at the index of a well-formed box: [KeyError]. *)
Example convert_class_zero :
  fst (convert_format_keras_to_wandb [[NInt 0; NInt 0; NInt 1; NInt 1]]
         [NInt 0] None demo_state)
  = Raise KeyError.
Proof. vm_compute. reflexivity. Qed.

(** ** What the loop reads *)

Lemma convert_box_ext b_i box box' cl cl' conf conf' σ :
  (∀ t, (t < 4)%nat → box !! t = box' !! t) →
  cl !! b_i = cl' !! b_i →
  confidence_given conf = confidence_given conf' →
  default [] conf !! b_i = default [] conf' !! b_i →
  convert_box b_i box cl conf σ = convert_box b_i box' cl' conf' σ.
Proof.
  intros Hbox Hcl Hgiven Hconf. unfold convert_box, index.
  rewrite (Hbox 0%nat), (Hbox 1%nat), (Hbox 2%nat), (Hbox 3%nat) by lia.
  now rewrite Hcl, Hgiven, Hconf.
Qed.

Lemma convert_loop_ext box_list :
  ∀ box_list' b_i cl cl' conf conf' all_boxes σ,
    length box_list' = length box_list →
    (∀ j box box', box_list !! j = Some box → box_list' !! j = Some box' →
       (∀ t, (t < 4)%nat → box !! t = box' !! t) ∧
       cl !! (b_i + j)%nat = cl' !! (b_i + j)%nat ∧
       confidence_given conf = confidence_given conf' ∧
       default [] conf !! (b_i + j)%nat = default [] conf' !! (b_i + j)%nat) →
    convert_loop b_i box_list cl conf all_boxes σ
    = convert_loop b_i box_list' cl' conf' all_boxes σ.
Proof.
  induction box_list as [| box rest IH];
    intros [| box' rest'] b_i cl cl' conf conf' acc σ Hlen Hext;
    try discriminate; [reflexivity |].
  simpl. unfold bind.
  destruct (Hext 0%nat box box' eq_refl eq_refl) as (Hb & Hc & Hg & Hf).
  rewrite Nat.add_0_r in Hc, Hf.
  rewrite (convert_box_ext b_i box box' cl cl' conf conf' σ Hb Hc Hg Hf).
  destruct (convert_box b_i box' cl' conf' σ) as [[d | e] σ1]; [| reflexivity].
  apply IH; [now injection Hlen |].
  intros j b b' Hj Hj'. rewrite Nat.add_succ_l, <- Nat.add_succ_r.
  exact (Hext (S j) b b' Hj Hj').
Qed.

(** X5: the function reads the first four elements of each box and, of
    classes_list and of a confidence list, the entries at the indices of
    the boxes: cutting every box to four elements and both lists to the
    number of boxes changes neither the result nor the error. *)
Theorem convert_ignores_rest box_list classes_list confidence_list σ :
  convert_format_keras_to_wandb box_list classes_list confidence_list σ
  = convert_format_keras_to_wandb (take 4 <$> box_list)
      (take (length box_list) classes_list)
      (take (length box_list) <$> confidence_list) σ.
Proof.
  unfold convert_format_keras_to_wandb.
  apply convert_loop_ext; [now rewrite length_fmap |].
  intros j box box' Hj Hj'. rewrite list_lookup_fmap, Hj in Hj'.
  injection Hj' as <-. apply lookup_lt_Some in Hj. simpl.
  split; [| split; [| split]].
  - intros t Ht. rewrite lookup_take_lt by exact Ht. reflexivity.
  - rewrite lookup_take_lt by exact Hj. reflexivity.
  - destruct box_list; [simpl in Hj; lia |].
    destruct confidence_list as [[| c cs] |]; reflexivity.
  - destruct confidence_list as [l |]; simpl; [| reflexivity].
    rewrite lookup_take_lt by exact Hj. reflexivity.
Qed.

(** ** A list of boxes and its prefixes *)

Lemma convert_loop_app bl1 :
  ∀ bl2 b_i cl conf all_boxes σ,
    convert_loop b_i (bl1 ++ bl2) cl conf all_boxes σ
    = bind (convert_loop b_i bl1 cl conf all_boxes)
        (fun acc => convert_loop (b_i + length bl1) bl2 cl conf acc) σ.
Proof.
  induction bl1 as [| box rest IH]; intros bl2 b_i cl conf acc σ; simpl.
  - unfold bind, ret. now rewrite Nat.add_0_r.
  - unfold bind.
    destruct (convert_box b_i box cl conf σ) as [[d | e] σ1]; [| reflexivity].
    rewrite IH. unfold bind.
    now rewrite Nat.add_succ_l, <- Nat.add_succ_r.
Qed.

(** X6: the boxes are converted front to back, and the first failure
    ends the call. If the call on a prefix of the boxes raises, the call
    on the whole list raises the same error; if the call on the whole
    list returns, the call on the prefix returns the first entries of
    that result. *)
Theorem convert_prefix bl1 bl2 classes_list confidence_list σ :
  (∀ e, fst (convert_format_keras_to_wandb bl1 classes_list
               confidence_list σ) = Raise e →
        fst (convert_format_keras_to_wandb (bl1 ++ bl2) classes_list
               confidence_list σ) = Raise e)
  ∧ (∀ out, convert_format_keras_to_wandb (bl1 ++ bl2) classes_list
              confidence_list σ = (Ok out, σ) →
            convert_format_keras_to_wandb bl1 classes_list
              confidence_list σ = (Ok (take (length bl1) out), σ)).
Proof.
  unfold convert_format_keras_to_wandb. split.
  - intros e He. rewrite convert_loop_app. unfold bind.
    destruct (convert_loop 0 bl1 classes_list confidence_list [] σ)
      as [[a | e'] σ1]; simpl in He; [discriminate | exact He].
  - intros out Hrun. rewrite convert_loop_app in Hrun.
    apply bind_ok_inv in Hrun as (a & σ1 & H1 & H2).
    pose proof (convert_loop_ok _ _ _ _ _ _ _ _ H1) as (-> & n1 & -> & Hlen1 & _).
    pose proof (convert_loop_ok _ _ _ _ _ _ _ _ H2) as (_ & n2 & -> & _ & _).
    simpl in *. rewrite H1. f_equal. f_equal.
    now rewrite <- Hlen1, take_app_length.
Qed.

(** ** [parse_tfrecord_fn]: the shape of what it returns *)

Lemma stack4_ok_inv a :
  ∀ b c d rows,
    stack4 a b c d = Ok rows →
    length b = length a ∧ length c = length a ∧ length d = length a ∧
    length rows = length a ∧ Forall (fun r => length r = 4%nat) rows.
Proof.
  induction a as [| x a IH]; intros [| y b] [| z c] [| w d] rows H;
    simpl in H; try discriminate.
  - injection H as <-. repeat split. constructor.
  - destruct (stack4 a b c d) as [rows' |] eqn:E; [| discriminate].
    injection H as <-. destruct (IH _ _ _ _ E) as (Hb & Hc & Hd & Hr & Hall).
    simpl. repeat split; try congruence. constructor; [reflexivity | exact Hall].
Qed.

Lemma stack4_raise a :
  ∀ b c d,
    ¬ (length b = length a ∧ length c = length a ∧ length d = length a) →
    stack4 a b c d = Raise (LibraryError "InvalidArgumentError").
Proof.
  induction a as [| x a IH]; intros [| y b] [| z c] [| w d] H; simpl;
    try reflexivity.
  - exfalso. apply H. auto.
  - rewrite IH; [reflexivity |]. intros (Hb & Hc & Hd). apply H.
    simpl. auto.
Qed.

Lemma convert_format_ok_inv L img rows :
  ∀ abs_boxes,
    convert_format L rows img = Ok abs_boxes →
    length abs_boxes = length rows ∧
    Forall (fun r => length r = 4%nat) abs_boxes.
Proof.
  unfold convert_format.
  induction rows as [| r rows IH]; intros abs_boxes H; simpl in H.
  - injection H as <-. split; [reflexivity | constructor].
  - destruct (rel_xyxy_to_xyxy L img r) as [r' |] eqn:Er; [| discriminate].
    destruct (traverse (rel_xyxy_to_xyxy L img) rows) as [rs |] eqn:Ers;
      [| discriminate].
    injection H as <-. destruct (IH _ eq_refl) as [Hlen Hall].
    split; [simpl; now rewrite Hlen |]. constructor; [| exact Hall].
    unfold rel_xyxy_to_xyxy in Er.
    destruct r as [| ? [| ? [| ? [| ? [| ? ?]]]]]; try discriminate.
    now injection Er as <-.
Qed.

Lemma parse_ok_shape L example σ ds σ' :
  parse_tfrecord_fn L example σ = (Ok ds, σ') →
  σ' = σ ∧
  Forall (fun box => length box = 4%nat) (boxes (bounding_boxes ds)) ∧
  ∃ parsed encoded xmin ymin xmax ymax,
    tf_parse_single_example L example feature_description = Ok parsed ∧
    parsed !! "image/encoded" = Some (TString encoded) ∧
    tf_decode_jpeg L encoded 3 = Ok (images ds) ∧
    parsed !! "image/object/bbox/xmin" = Some (TSparseFloat xmin) ∧
    parsed !! "image/object/bbox/ymin" = Some (TSparseFloat ymin) ∧
    parsed !! "image/object/bbox/xmax" = Some (TSparseFloat xmax) ∧
    parsed !! "image/object/bbox/ymax" = Some (TSparseFloat ymax) ∧
    parsed !! "image/object/class/label"
    = Some (TSparseInt64 (classes (bounding_boxes ds))) ∧
    length xmin = length (boxes (bounding_boxes ds)) ∧
    length ymin = length (boxes (bounding_boxes ds)) ∧
    length xmax = length (boxes (bounding_boxes ds)) ∧
    length ymax = length (boxes (bounding_boxes ds)).
Proof.
  intros H. pose proof (parse_ok_inv _ _ _ _ _ H) as ->.
  split; [reflexivity |].
  unfold parse_tfrecord_fn in H. inv_binds H.
  apply ret_ok_inv in H as [-> _].
  unfold feature_getitem, encoded_bytes, sparse_to_dense, float_values,
    int_values in *.
  repeat match goal with
         | Hm : match ?x with _ => _ end = Ok _ |- _ =>
             destruct x eqn:?; try discriminate Hm;
             injection Hm as ?; subst
         end.
  match goal with
  | Hs : stack4 _ _ _ _ = Ok _ |- _ =>
      apply stack4_ok_inv in Hs as (Hb & Hc & Hd & Hr & _)
  end.
  match goal with
  | Hcf : convert_format _ _ _ = Ok _ |- _ =>
      apply convert_format_ok_inv in Hcf as (Hlen & Hall)
  end.
  simpl. split; [exact Hall |].
  do 6 eexists. repeat (split; [eassumption || reflexivity |]).
  repeat split; congruence.
Qed.



(** X8: coordinate features of different lengths make the function
    raise tf.stack's InvalidArgumentError, after the image was decoded
    and with nothing changed. *)
Theorem parse_ragged_coordinates L example σ parsed encoded img
    xmin ymin xmax ymax labels :
  tf_parse_single_example L example feature_description = Ok parsed →
  parsed !! "image/encoded" = Some (TString encoded) →
  tf_decode_jpeg L encoded 3 = Ok img →
  parsed !! "image/object/bbox/xmin" = Some (TSparseFloat xmin) →
  parsed !! "image/object/bbox/xmax" = Some (TSparseFloat xmax) →
  parsed !! "image/object/bbox/ymin" = Some (TSparseFloat ymin) →
  parsed !! "image/object/bbox/ymax" = Some (TSparseFloat ymax) →
  parsed !! "image/object/class/label" = Some (TSparseInt64 labels) →
  ¬ (length ymin = length xmin ∧ length xmax = length xmin ∧
     length ymax = length xmin) →
  parse_tfrecord_fn L example σ
  = (Raise (LibraryError "InvalidArgumentError"), σ).
Proof.
  intros Hparse Henc Hdec Hxmin Hxmax Hymin Hymax Hlab Hne.
  unfold parse_tfrecord_fn, bind, lift, ret, feature_getitem.
  rewrite Hparse, Henc. simpl. rewrite Hdec, Hxmin. simpl.
  rewrite Hxmax. simpl. rewrite Hymin. simpl. rewrite Hymax. simpl.
  rewrite Hlab. simpl. now rewrite (stack4_raise _ _ _ _ Hne).
Qed.

Lemma parse_ragged_coordinates_witness :
  parse_tfrecord_fn ragged_libs "val record" demo_state
  = (Raise (LibraryError "InvalidArgumentError"), demo_state).
Proof.
  apply (parse_ragged_coordinates ragged_libs "val record" demo_state
           (<["image/object/bbox/xmax" := TSparseFloat []]> demo_parsed)
           "jpeg" demo_image [dec 1 4] [dec 1 4] [] [dec 3 4] [3]);
    try reflexivity.
  intros (_ & H & _). discriminate H.
Defined.

(** X9: the function asks for the features image/height and image/width
    and never reads them: whatever values a record carries there, the
    result is the same, the boxes being scaled by the shape of the
    decoded image. *)
Theorem parse_ignores_height_width L example σ h w :
  parse_tfrecord_fn (with_parsed (set_height_width h w) L) example σ
  = parse_tfrecord_fn L example σ.
Proof.
  unfold parse_tfrecord_fn, bind, lift, feature_getitem, with_parsed. simpl.
  destruct (tf_parse_single_example L example feature_description)
    as [parsed | e]; [| reflexivity].
  unfold set_height_width.
  repeat (rewrite lookup_insert_ne by discriminate).
  reflexivity.
Qed.

(** ** [start]: which error *)

Lemma first_failure_app env before k after :
  (∀ k', k' ∈ before → env_set env k') →
  first_failure env (before ++ k :: after)%list = first_failure env (k :: after).
Proof.
  induction before as [| b before IH]; intros Hset; [reflexivity |].
  simpl. destruct (Hset b) as (v & Hv & Hne); [left |].
  rewrite Hv. destruct (String.eqb_spec v ""); [contradiction |].
  apply IH. intros k' Hk'. apply Hset. now right.
Qed.

(** X10: start checks the seven variables in the order it names them
    and stops at the first that fails: with every variable before k set
    and not empty, an unset k raises KeyError and a k set to the empty
    string raises AssertionError, and start has changed nothing. *)
Theorem start_first_offender σ before k after :
  required_env = (before ++ k :: after)%list →
  (∀ k', k' ∈ before → env_set (environ σ) k') →
  (environ σ !! k = None → start σ = (Raise KeyError, σ)) ∧
  (environ σ !! k = Some "" → start σ = (Raise AssertionError, σ)).
Proof.
  intros Henv Hset. rewrite start_run, Henv, first_failure_app by exact Hset.
  simpl. split; intros ->; reflexivity.
Qed.

Lemma start_first_offender_witness :
  start demo_state_no_kaggle_key = (Raise KeyError, demo_state_no_kaggle_key).
Proof.
  refine (proj1 (start_first_offender demo_state_no_kaggle_key
                   [ "WANDB_API_KEY"; "WANDB_ENTITY"; "WANDB_PROJECT";
                     "S3_BUCKET_ADDRESS"; "KAGGLE_USERNAME" ]
                   "KAGGLE_KEY" ["IAM_ROLE_SAGEMAKER"] eq_refl _) _).
  - intros k' Hk'.
    repeat (apply elem_of_cons in Hk' as [-> | Hk']);
      [| | | | | now apply elem_of_nil in Hk'];
      eexists; (split; [vm_compute; reflexivity | discriminate]).
  - vm_compute. reflexivity.
Defined.

(** ** [augment_data_train_model]: what it reads and writes *)

Lemma assoc_set_eq {A} k (v : A) d : assoc k (assoc_set k v d) = Some v.
Proof.
  induction d as [| [k' v'] d IH]; simpl.
  - now rewrite String.eqb_refl.
  - destruct (String.eqb_spec k k') as [-> | Hne]; simpl.
    + now rewrite String.eqb_refl.
    + destruct (String.eqb_spec k k'); [contradiction | exact IH].
Qed.

Lemma assoc_set_ne {A} k k' (v : A) d :
  k ≠ k' → assoc k' (assoc_set k v d) = assoc k' d.
Proof.
  intros Hne. induction d as [| [k0 v0] d IH]; simpl.
  - destruct (String.eqb_spec k' k); [congruence | reflexivity].
  - destruct (String.eqb_spec k k0) as [-> | Hk]; simpl.
    + destruct (String.eqb_spec k' k0); [congruence | reflexivity].
    + destruct (String.eqb_spec k' k0); [reflexivity | exact IH].
Qed.

Lemma augment_effects L P σ σ' :
  augment_data_train_model L P σ = (Ok tt, σ') →
  ∃ bucket train val archive,
    environ σ !! "S3_BUCKET_ADDRESS" = Some bucket ∧
    s3 σ !! raw_data_url bucket "leaves.tfrecord" = Some train ∧
    s3 σ !! raw_data_url bucket "test_leaves.tfrecord" = Some val ∧
    files σ' = <["model-0.0001.tar.gz" := archive]>
                 (<["val_test_leaves.tfrecord" := val]>
                    (<["train_leaves.tfrecord" := train]> (files σ))) ∧
    s3 σ' = <[s3_run_url L "model-0.0001.tar.gz" := archive]> (s3 σ) ∧
    self σ' !! "config"
    = Some (PDict (if TESTING P
                   then assoc_set "epoch" (PInt 2) initial_config
                   else initial_config)) ∧
    environ σ' = environ σ ∧ endpoints σ' = endpoints σ ∧
    wandb_log σ' = wandb_log σ ∧
    utils_class_mapping σ' = utils_class_mapping σ.
Proof.
  unfold augment_data_train_model, write_file. intros H.
  destruct (TESTING P); inv_run H;
    try match goal with
        | Hif : bind _ _ _ = (Ok _, _) |- _ => inv_run Hif
        end;
    norm_state;
    (destruct (environ σ !! "S3_BUCKET_ADDRESS") as [bucket |];
       [| discriminate]);
    match goal with Hb : Ok bucket = Ok _ |- _ => injection Hb as <- end;
    unfold raw_data_url;
    do 4 eexists; repeat split; try eassumption;
    repeat first [ rewrite lookup_insert_eq
                 | rewrite lookup_insert_ne by discriminate ];
    reflexivity.
Qed.

(** X11: a successful augment_data_train_model has read the two raw
    data objects of the bucket named by S3_BUCKET_ADDRESS and written
    them to train_leaves.tfrecord and val_test_leaves.tfrecord, has
    written the model archive to model-0.0001.tar.gz and put that same
    archive at the run's S3 url, has put or changed no other S3 object,
    and has created or deleted no endpoint. *)
Theorem augment_storage L P σ σ' :
  augment_data_train_model L P σ = (Ok tt, σ') →
  ∃ bucket train val archive,
    environ σ !! "S3_BUCKET_ADDRESS" = Some bucket ∧
    s3 σ !! raw_data_url bucket "leaves.tfrecord" = Some train ∧
    s3 σ !! raw_data_url bucket "test_leaves.tfrecord" = Some val ∧
    files σ' !! "train_leaves.tfrecord" = Some train ∧
    files σ' !! "val_test_leaves.tfrecord" = Some val ∧
    files σ' !! "model-0.0001.tar.gz" = Some archive ∧
    s3 σ' = <[s3_run_url L "model-0.0001.tar.gz" := archive]> (s3 σ) ∧
    endpoints σ' = endpoints σ.
Proof.
  intros H. apply augment_effects in H
    as (bucket & train & val & archive & Hb & Ht & Hv & Hf & Hs & _ & _
        & Hp & _ & _).
  exists bucket, train, val, archive.
  split; [exact Hb |]. split; [exact Ht |]. split; [exact Hv |].
  rewrite Hf.
  split; [rewrite !lookup_insert_ne by discriminate; apply lookup_insert_eq |].
  split; [rewrite lookup_insert_ne by discriminate; apply lookup_insert_eq |].
  split; [apply lookup_insert_eq |].
  split; [exact Hs | exact Hp].
Qed.

Lemma augment_storage_witness :
  ∃ bucket train val archive,
    environ demo_state !! "S3_BUCKET_ADDRESS" = Some bucket ∧
    s3 demo_state !! raw_data_url bucket "leaves.tfrecord" = Some train ∧
    s3 demo_state !! raw_data_url bucket "test_leaves.tfrecord" = Some val ∧
    files demo_after_augment !! "train_leaves.tfrecord" = Some train ∧
    files demo_after_augment !! "val_test_leaves.tfrecord" = Some val ∧
    files demo_after_augment !! "model-0.0001.tar.gz" = Some archive ∧
    s3 demo_after_augment
    = <[s3_run_url demo_libs "model-0.0001.tar.gz" := archive]> (s3 demo_state) ∧
    endpoints demo_after_augment = endpoints demo_state.
Proof.
  apply (augment_storage demo_libs default_params demo_state
           demo_after_augment).
  vm_compute. reflexivity.
Defined.

(** X12: a successful augment_data_train_model leaves the
    hyperparameters in self.config with epoch 2 under TESTING and 40
    otherwise, and every other key as the step first set it. *)
Theorem augment_config L P σ σ' :
  augment_data_train_model L P σ = (Ok tt, σ') →
  ∃ cfg, self σ' !! "config" = Some cfg ∧
    getitem cfg "epoch" = Ok (PInt (if TESTING P then 2 else 40)) ∧
    ∀ k, k ≠ "epoch" → getitem cfg k = getitem (PDict initial_config) k.
Proof.
  intros H. apply augment_effects in H
    as (_ & _ & _ & _ & _ & _ & _ & _ & _ & Hcfg & _).
  eexists. split; [exact Hcfg |]. destruct (TESTING P).
  - split; [unfold getitem; now rewrite assoc_set_eq |].
    intros k Hk. unfold getitem. rewrite assoc_set_ne by congruence.
    reflexivity.
  - split; [reflexivity | reflexivity].
Qed.

Lemma augment_config_witness :
  ∃ cfg, self demo_after_augment !! "config" = Some cfg ∧
    getitem cfg "epoch" = Ok (PInt (if TESTING default_params then 2 else 40)) ∧
    ∀ k, k ≠ "epoch" → getitem cfg k = getitem (PDict initial_config) k.
Proof.
  apply (augment_config demo_libs default_params demo_state
           demo_after_augment).
  vm_compute. reflexivity.
Defined.

(** ** [evaluate_model]: what it logs, and what it leaves *)



Lemma map_m_length {A B} (f : A → M B) xs :
  ∀ σ ys σ', map_m f xs σ = (Ok ys, σ') → length ys = length xs.
Proof.
  induction xs as [| x xs IH]; intros σ ys σ' H; simpl in H.
  - apply ret_ok_inv in H as [-> _]. reflexivity.
  - apply bind_ok_inv in H as (y & σ1 & _ & H).
    apply bind_ok_inv in H as (ys' & σ2 & Hys & H).
    apply ret_ok_inv in H as [-> _]. simpl. f_equal. exact (IH _ _ _ Hys).
Qed.

Lemma evaluate_example_log L config weights record :
  preserves wandb_log (evaluate_example L config weights record).
Proof. unfold evaluate_example. frame. Qed.

Lemma evaluate_example_storage L config weights record :
  preserves storage (evaluate_example L config weights record).
Proof. unfold evaluate_example. frame. Qed.

Lemma evaluate_model_storage L : preserves storage (evaluate_model L).
Proof.
  unfold evaluate_model.
  repeat (apply preserves_bind; [| intros ?]); auto with frame.
  apply preserves_map_m. intros record. apply evaluate_example_storage.
Qed.

Lemma storage_parts σ σ' :
  storage σ' = storage σ →
  environ σ' = environ σ ∧ utils_class_mapping σ' = utils_class_mapping σ ∧
  files σ' = files σ ∧ s3 σ' = s3 σ ∧ endpoints σ' = endpoints σ.
Proof. unfold storage. intros [= ? ? ? ? ? ?]. auto. Qed.


Lemma evaluate_model_effects L σ σ' :
  evaluate_model L σ = (Ok tt, σ') →
  ∃ val_file content records cfg n rows,
    self σ !! "val_tfrecord_file" = Some (PStr val_file) ∧
    files σ !! val_file = Some content ∧
    tf_records L content = Ok records ∧
    self σ !! "config" = Some cfg ∧
    getitem cfg "num_examples" = Ok (PInt n) ∧
    wandb_log σ' = (wandb_log σ ++ [("Plant Disease Predictions", rows)])%list ∧
    length rows = Nat.min (Z.to_nat n) (length records).
Proof.
  unfold evaluate_model. intros H.
  repeat (let a := fresh "a" in
          let σ1 := fresh "σ" in
          let H1 := fresh "Hstep" in
          apply bind_ok_inv in H; destruct H as (a & σ1 & H1 & H);
          inv_prim H1).
  unfold self_next in H. apply modify_ok_inv in H. subst σ'.
  match goal with
  | Hm : map_m (evaluate_example _ ?c ?w) ?xs ?σa = (Ok _, _) |- _ =>
      pose proof (map_m_length _ _ _ _ _ Hm) as Hlen;
      pose proof (preserves_map_m wandb_log (evaluate_example L c w) xs
                    (evaluate_example_log L c w) σa) as Hlog;
      rewrite Hm in Hlog; simpl in Hlog
  end.
  rewrite length_take in Hlen.
  repeat match goal with
         | Hs : as_str ?v = Ok _ |- _ =>
             destruct v; try discriminate Hs; injection Hs as ->
         | Hs : as_int ?v = Ok _ |- _ =>
             destruct v; try discriminate Hs; injection Hs as ->
         end.
  match goal with
  | H1 : self σ !! "config" = Some ?x, H2 : self σ !! "config" = Some ?y
    |- _ => tryif constr_eq x y then fail else
            (rewrite H1 in H2; injection H2 as <-)
  end.
  cbn [wandb_log set_wandb_log set_transition]. rewrite Hlog.
  do 6 eexists. repeat (split; [eassumption |]).
  split; [reflexivity | exact Hlen].
Qed.

(** X13: a successful evaluate_model logs exactly one table, named
    Plant Disease Predictions, after what was logged before, with one row
    per record of the validation file up to config.num_examples rows. *)
Theorem evaluate_model_logs L σ σ' :
  evaluate_model L σ = (Ok tt, σ') →
  ∃ val_file content records cfg n rows,
    self σ !! "val_tfrecord_file" = Some (PStr val_file) ∧
    files σ !! val_file = Some content ∧
    tf_records L content = Ok records ∧
    self σ !! "config" = Some cfg ∧
    getitem cfg "num_examples" = Ok (PInt n) ∧
    wandb_log σ' = (wandb_log σ ++ [("Plant Disease Predictions", rows)])%list ∧
    length rows = Nat.min (Z.to_nat n) (length records).
Proof.
  unfold evaluate_model. intros H.
  repeat (let a := fresh "a" in
          let σ1 := fresh "σ" in
          let H1 := fresh "Hstep" in
          apply bind_ok_inv in H; destruct H as (a & σ1 & H1 & H);
          inv_prim H1).
  unfold self_next in H. apply modify_ok_inv in H. subst σ'.
  match goal with
  | Hm : map_m (evaluate_example _ ?c ?w) ?xs ?σa = (Ok _, _) |- _ =>
      pose proof (map_m_length _ _ _ _ _ Hm) as Hlen;
      pose proof (preserves_map_m wandb_log (evaluate_example L c w) xs
                    (evaluate_example_log L c w) σa) as Hlog;
      rewrite Hm in Hlog; simpl in Hlog
  end.
  rewrite length_take in Hlen.
  repeat match goal with
         | Hs : as_str ?v = Ok _ |- _ =>
             destruct v; try discriminate Hs; injection Hs as ->
         | Hs : as_int ?v = Ok _ |- _ =>
             destruct v; try discriminate Hs; injection Hs as ->
         end.
  match goal with
  | H1 : self σ !! "config" = Some ?x, H2 : self σ !! "config" = Some ?y
    |- _ => tryif constr_eq x y then fail else
            (rewrite H1 in H2; injection H2 as <-)
  end.
  cbn [wandb_log set_wandb_log set_transition]. rewrite Hlog.
  do 6 eexists. repeat (split; [eassumption |]).
  split; [reflexivity | exact Hlen].
Qed.

Lemma evaluate_model_logs_witness :
  ∃ val_file content records cfg n rows,
    self demo_after_augment !! "val_tfrecord_file" = Some (PStr val_file) ∧
    files demo_after_augment !! val_file = Some content ∧
    tf_records demo_libs content = Ok records ∧
    self demo_after_augment !! "config" = Some cfg ∧
    getitem cfg "num_examples" = Ok (PInt n) ∧
    wandb_log demo_after_evaluate
    = (wandb_log demo_after_augment
         ++ [("Plant Disease Predictions", rows)])%list ∧
    length rows = Nat.min (Z.to_nat n) (length records).
Proof.
  apply (evaluate_model_logs demo_libs demo_after_augment demo_after_evaluate).
  vm_compute. reflexivity.
Defined.


(** ** [deploy]: the endpoint when something fails *)

Lemma preserves_create_endpoint {X} (f : state → X) name md :
  (∀ g σ, f (set_endpoints g σ) = f σ) →
  preserves f (create_endpoint name md).
Proof.
  intros Hf σ. unfold create_endpoint.
  destruct (s3 σ !! md); [| reflexivity].
  destruct (endpoints σ !! name); [reflexivity | apply Hf].
Qed.

Lemma preserves_delete_endpoint {X} (f : state → X) name :
  (∀ g σ, f (set_endpoints g σ) = f σ) →
  preserves f (delete_endpoint name).
Proof.
  intros Hf σ. unfold delete_endpoint.
  destruct (endpoints σ !! name); [apply Hf | reflexivity].
Qed.

Lemma deploy_outside L P : preserves outside_endpoints (deploy L P).
Proof.
  unfold deploy.
  repeat (apply preserves_bind; [| intros ?]); auto with frame.
  - now apply preserves_create_endpoint.
  - unfold deploy_test_request. frame.
  - now apply preserves_delete_endpoint.
Qed.

Lemma deploy_effects L P σ σ' :
  deploy L P σ = (Ok tt, σ') →
  endpoints σ' = endpoints σ ∧ outside_endpoints σ' = outside_endpoints σ ∧
  is_Some (self σ' !! "result") ∧ transition σ' = Some S_end.
Proof.
  intros H. pose proof (deploy_ends L P _ _ _ H) as Hend.
  pose proof (deploy_outside L P σ) as Hout. rewrite H in Hout.
  simpl in Hout.
  unfold deploy in H. do 6 inv_bind H.
  match goal with
  | Hr : deploy_test_request _ ?name ?σa = (Ok ?u, _) |- _ =>
      destruct u;
      pose proof (deploy_test_request_endpoints L name σa) as Hfr;
      rewrite Hr in Hfr; cbn [snd endpoints set_endpoints] in Hfr;
      pose proof (deploy_test_request_result _ _ _ _ Hr) as Hres
  end.
  inv_run H. cbn [endpoints set_endpoints self set_transition] in *.
  rewrite Hfr. repeat split; try assumption.
  rewrite delete_insert_eq. now apply delete_id.
Qed.

Lemma bind_raise {A B} (m : M A) (k : A → M B) σ e σ1 :
  m σ = (Raise e, σ1) → bind m k σ = (Raise e, σ1).
Proof. unfold bind. now intros ->. Qed.

(** X15: deploy has no clean-up for a failure between creating and
    deleting the endpoint. If the test request of lines 369 to 413
    raises (no record, a record that does not parse, an error response,
    a response without predictions), deploy raises the same error and the
    endpoint it created under the fresh name stays live. *)
Theorem deploy_failure_leaves_endpoint L P σ url role blob e σ1 :
  self σ !! "s3_path" = Some (PStr url) →
  environ σ !! "IAM_ROLE_SAGEMAKER" = Some role →
  s3 σ !! url = Some blob →
  endpoints σ !! endpoint_name (now_ms σ) = None →
  deploy_test_request L (endpoint_name (now_ms σ))
    (set_endpoints (insert (endpoint_name (now_ms σ)) url) σ)
  = (Raise e, σ1) →
  deploy L P σ = (Raise e, σ1) ∧
  endpoints σ1 = <[endpoint_name (now_ms σ) := url]> (endpoints σ).
Proof.
  intros Hpath Hrole Hblob Hfree Hreq. split.
  - unfold deploy.
    erewrite bind_run; [| reflexivity].
    erewrite bind_run; [| unfold getattr; rewrite Hpath; reflexivity].
    erewrite bind_run; [| reflexivity].
    erewrite bind_run; [| unfold os_environ; rewrite Hrole; reflexivity].
    erewrite bind_run;
      [| unfold create_endpoint; rewrite Hblob, Hfree; reflexivity].
    now apply bind_raise.
  - pose proof (deploy_test_request_endpoints L (endpoint_name (now_ms σ))
                  (set_endpoints (insert (endpoint_name (now_ms σ)) url) σ))
      as Hfr.
    rewrite Hreq in Hfr. exact Hfr.
Qed.

Lemma deploy_failure_leaves_endpoint_witness :
  deploy failing_endpoint_libs default_params demo_after_evaluate
  = (Raise (LibraryError "ModelError"), demo_after_failed_request) ∧
  endpoints demo_after_failed_request
  = <[endpoint_name (now_ms demo_after_evaluate) :=
        "s3://bucket/metaflow/main_flow/1/model-0.0001.tar.gz"]>
      (endpoints demo_after_evaluate).
Proof.
  apply (deploy_failure_leaves_endpoint failing_endpoint_libs default_params
           demo_after_evaluate
           "s3://bucket/metaflow/main_flow/1/model-0.0001.tar.gz"
           "role" "saved_model.tar.gz").
  - vm_compute. reflexivity.
  - vm_compute. reflexivity.
  - vm_compute. reflexivity.
  - vm_compute. reflexivity.
  - vm_compute. reflexivity.
Defined.

(** ** The steps in a run *)

Lemma run_step_ok_inv L P s σ t σ' :
  run_step L P s σ = (Ok t, σ') →
  step_body L P s (set_transition None σ) = (Ok tt, σ') ∧ t = transition σ'.
Proof.
  unfold run_step. intros H. do 2 inv_bind H.
  apply gets_ok_inv in H as [-> ->].
  match goal with
  | Hb : step_body _ _ _ _ = (Ok ?u, _) |- _ => destruct u; auto
  end.
Qed.

Lemma start_effects σ σ' :
  start σ = (Ok tt, σ') →
  σ' = set_transition (Some S_augment_data_train_model) σ ∧
  ∀ k, k ∈ required_env → env_set (environ σ) k.
Proof.
  rewrite start_run. intros H.
  destruct (first_failure (environ σ) required_env) eqn:E; [discriminate |].
  injection H as <-. split; [reflexivity |]. now apply first_failure_none.
Qed.

(** X16: in a run, once start, augment_data_train_model and
    evaluate_model have returned, the flow attributes, the S3 object and
    the variable deploy reads are in place: self.s3_path names an object
    that is in S3, IAM_ROLE_SAGEMAKER is set and not empty,
    self.train_tfrecord_file and self.config are set; and no endpoint
    was created or deleted so far. *)
Theorem deploy_inputs_ready L P σ0 t1 σ1 t2 σ2 t3 σ3 :
  run_step L P S_start σ0 = (Ok t1, σ1) →
  run_step L P S_augment_data_train_model σ1 = (Ok t2, σ2) →
  run_step L P S_evaluate_model σ2 = (Ok t3, σ3) →
  t3 = Some S_deploy ∧
  ∃ url archive role,
    self σ3 !! "s3_path" = Some (PStr url) ∧
    s3 σ3 !! url = Some archive ∧
    environ σ3 !! "IAM_ROLE_SAGEMAKER" = Some role ∧ role ≠ "" ∧
    self σ3 !! "train_tfrecord_file" = Some (PStr "train_leaves.tfrecord") ∧
    is_Some (self σ3 !! "config") ∧
    endpoints σ3 = endpoints σ0.
Proof.
  intros H1 H2 H3.
  pose proof (step_transition _ _ _ _ _ _ H3) as ->.
  split; [reflexivity |].
  apply run_step_ok_inv in H1 as [H1 _]. apply run_step_ok_inv in H2 as [H2 _].
  apply run_step_ok_inv in H3 as [H3 _]. cbn [step_body] in *.
  apply start_effects in H1 as [-> Henv].
  destruct (Henv "IAM_ROLE_SAGEMAKER") as (role & Hrole & Hne);
    [unfold required_env; set_solver |].
  pose proof (augment_writes _ _ _ _ H2)
    as (archive & json & weights & Hpath & Hs3 & _ & Htrain).
  pose proof (augment_effects _ _ _ _ H2)
    as (bucket & train & val & archive' & _ & _ & _ & _ & _ & Hcfg
        & Henv2 & Hep2 & _ & _).
  pose proof (evaluate_model_storage L (set_transition None σ2)) as Hst.
  rewrite H3 in Hst. cbn [snd] in Hst. apply storage_parts in Hst
    as (Henv3 & _ & _ & Hs33 & Hep3).
  assert (Hself : ∀ k, k ∈ handed_off → self σ3 !! k = self σ2 !! k).
  { intros k Hk. pose proof (evaluate_model_frame L k Hk
                               (set_transition None σ2)) as E.
    now rewrite H3 in E. }
  cbn [environ files s3 endpoints set_transition] in *.
  exists (s3_run_url L "model-0.0001.tar.gz"), archive, role.
  repeat split.
  - rewrite Hself, Hpath by (unfold handed_off; set_solver). reflexivity.
  - now rewrite Hs33.
  - now rewrite Henv3, Henv2.
  - exact Hne.
  - rewrite Hself, Htrain by (unfold handed_off; set_solver). reflexivity.
  - rewrite Hself, Hcfg by (unfold handed_off; set_solver). eauto.
  - now rewrite Hep3, Hep2.
Qed.

Lemma deploy_inputs_ready_witness :
  Some S_deploy = Some S_deploy ∧
  ∃ url archive role,
    self demo_run_3 !! "s3_path" = Some (PStr url) ∧
    s3 demo_run_3 !! url = Some archive ∧
    environ demo_run_3 !! "IAM_ROLE_SAGEMAKER" = Some role ∧ role ≠ "" ∧
    self demo_run_3 !! "train_tfrecord_file"
    = Some (PStr "train_leaves.tfrecord") ∧
    is_Some (self demo_run_3 !! "config") ∧
    endpoints demo_run_3 = endpoints demo_state.
Proof.
  apply (deploy_inputs_ready demo_libs default_params demo_state
           (Some S_augment_data_train_model) demo_run_1
           (Some S_evaluate_model) demo_run_2
           (Some S_deploy) demo_run_3).
  - vm_compute. reflexivity.
  - vm_compute. reflexivity.
  - vm_compute. reflexivity.
Defined.

Lemma run_from_finished L P fuel s σ tr σ' :
  run_from L P fuel s σ = (tr, Finished, σ') →
  ∃ fuel' σ1,
    fuel = S fuel' ∧
    step_body L P s (set_transition None σ) = (Ok tt, σ1) ∧
    match successor s with
    | None => σ' = σ1 ∧ tr = [s]
    | Some s' =>
        ∃ tr', tr = s :: tr' ∧ run_from L P fuel' s' σ1 = (tr', Finished, σ')
    end.
Proof.
  destruct fuel as [| fuel']; [discriminate |]. cbn [run_from].
  destruct (run_step L P s σ) as [[t | e] σ1] eqn:Hstep; [| discriminate].
  pose proof (step_transition _ _ _ _ _ _ Hstep) as ->.
  apply run_step_ok_inv in Hstep as [Hbody _].
  intros H. exists fuel', σ1. split; [reflexivity |]. split; [exact Hbody |].
  destruct (successor s) as [s' |].
  - destruct (run_from L P fuel' s' σ1) as [[tr' o] σ2].
    injection H as <- -> <-. eauto.
  - injection H as <- <-. auto.
Qed.

(** X17: a run that finishes has executed the five stages, has put the
    model archive at the run's S3 url and changed no other object, has
    logged one table to W&B, holds in self.result the first prediction
    of the response an endpoint serving that archive gave, and leaves
    the live endpoints and class_mapping as they were before the run. *)
Theorem run_finished_effects L P fuel σ tr σ' :
  main_flow L P fuel σ = (tr, Finished, σ') →
  tr = pipeline ∧
  endpoints σ' = endpoints σ ∧
  utils_class_mapping σ' = utils_class_mapping σ ∧
  ∃ archive rows img response predictions result0,
    s3 σ' = <[s3_run_url L "model-0.0001.tar.gz" := archive]> (s3 σ) ∧
    wandb_log σ'
    = (wandb_log σ ++ [("Plant Disease Predictions", rows)])%list ∧
    sagemaker_invoke L archive img = Ok response ∧
    getitem response "predictions" = Ok predictions ∧
    getidx predictions 0 = Ok result0 ∧
    self σ' !! "result" = Some result0.
Proof.
  unfold main_flow. intros H.
  apply run_from_finished in H as (f1 & σ1 & -> & H1 & tr1 & -> & H).
  apply run_from_finished in H as (f2 & σ2 & -> & H2 & tr2 & -> & H).
  apply run_from_finished in H as (f3 & σ3 & -> & H3 & tr3 & -> & H).
  apply run_from_finished in H as (f4 & σ4 & -> & H4 & tr4 & -> & H).
  apply run_from_finished in H as (f5 & σ5 & -> & H5 & -> & ->).
  cbn [step_body successor] in *.
  split; [reflexivity |].
  apply start_effects in H1 as [-> _].
  pose proof (augment_writes _ _ _ _ H2)
    as (archive0 & json & weights & Hpath & Harch & _ & _).
  apply augment_effects in H2
    as (bucket & train & val & archive & _ & _ & _ & _ & Hs32 & _
        & _ & Hep2 & Hlog2 & Hcm2).
  pose proof (evaluate_model_storage L (set_transition None σ2)) as Hst.
  rewrite H3 in Hst. cbn [snd] in Hst. apply storage_parts in Hst
    as (_ & Hcm3 & _ & Hs33 & Hep3).
  assert (Hself : self σ3 !! "s3_path" = self σ2 !! "s3_path").
  { pose proof (evaluate_model_frame L "s3_path"
                  ltac:(unfold handed_off; set_solver)
                  (set_transition None σ2)) as E.
    now rewrite H3 in E. }
  apply evaluate_model_effects in H3
    as (_ & _ & _ & _ & _ & rows & _ & _ & _ & _ & _ & Hlog3 & _).
  pose proof (deploy_effects _ _ _ _ H4) as (Hep4 & Hout4 & _ & _).
  unfold outside_endpoints in Hout4.
  injection Hout4 as _ Hcm4 _ Hs34 _ Hlog4.
  apply deploy_ok in H4
    as (url & archive' & σr & img & response & predictions & result0
        & Hpath4 & Harch4 & _ & _ & _ & Hinv & Hpred & Hres0 & Hres & Hσ4).
  unfold end_step in H5. apply ret_ok_inv in H5 as [_ ->].
  cbn [environ utils_class_mapping s3 endpoints wandb_log self
       set_transition] in *.
  rewrite Hself, Hpath in Hpath4. injection Hpath4 as <-.
  rewrite Hs33, Hs32, lookup_insert_eq in Harch4. injection Harch4 as <-.
  split; [now rewrite Hep4, Hep3, Hep2 |].
  split; [now rewrite Hcm4, Hcm3, Hcm2 |].
  exists archive, rows, img, response, predictions, result0.
  split; [now rewrite Hs34, Hs33, Hs32 |].
  split; [now rewrite Hlog4, Hlog3, Hlog2 |].
  split; [exact Hinv |]. split; [exact Hpred |]. split; [exact Hres0 |].
  subst σ4. exact Hres.
Qed.

Lemma run_finished_effects_witness :
  pipeline = pipeline ∧
  endpoints demo_run_end = endpoints demo_state ∧
  utils_class_mapping demo_run_end = utils_class_mapping demo_state ∧
  ∃ archive rows img response predictions result0,
    s3 demo_run_end
    = <[s3_run_url demo_libs "model-0.0001.tar.gz" := archive]> (s3 demo_state) ∧
    wandb_log demo_run_end
    = (wandb_log demo_state ++ [("Plant Disease Predictions", rows)])%list ∧
    sagemaker_invoke demo_libs archive img = Ok response ∧
    getitem response "predictions" = Ok predictions ∧
    getidx predictions 0 = Ok result0 ∧
    self demo_run_end !! "result" = Some result0.
Proof.
  apply (run_finished_effects demo_libs default_params 5 demo_state
           pipeline demo_run_end).
  vm_compute. reflexivity.
Defined.

(** ** The ground truth of [evaluate_model] *)

(** X18: evaluate_model converts the boxes and labels of each parsed
    example (line 277). That conversion returns exactly when every box
    has four finite coordinates and a label at its index that is a key of
    class_mapping; a box without a label, a label outside the table or a
    coordinate that is NaN or infinite makes it raise. Boxes shorter than
    four values cannot occur, parse_tfrecord_fn builds none. *)
Theorem ground_truth_conversion L record σ example :
  parse_tfrecord_fn L record σ = (Ok example, σ) →
  (∃ out,
     convert_format_keras_to_wandb
       (map (map NFloat) (boxes (bounding_boxes example)))
       (map NInt (classes (bounding_boxes example))) None σ
     = (Ok out, σ))
  ↔ ∀ i box, boxes (bounding_boxes example) !! i = Some box →
      Forall (fun x => is_finite x = true) box ∧
      ∃ c, classes (bounding_boxes example) !! i = Some c ∧
           is_Some (utils_class_mapping σ !! c).
Proof.
  intros Hparse. apply parse_ok_shape in Hparse as (_ & Hshape & _).
  rewrite convert_accepted_iff. unfold accepted. split.
  - intros Hacc i box Hbox.
    destruct (Hacc i (map NFloat box)) as ((x0 & x1 & x2 & x3 & H0 & H1 & H2
      & H3 & F0 & F1 & F2 & F3) & (c & Hc & k & Hk & Hin) & _).
    { now rewrite list_lookup_fmap, Hbox. }
    rewrite Forall_lookup in Hshape. specialize (Hshape i box Hbox).
    destruct box as [| b0 [| b1 [| b2 [| b3 [| ? ?]]]]]; try discriminate.
    simpl in H0, H1, H2, H3.
    injection H0 as <-. injection H1 as <-. injection H2 as <-.
    injection H3 as <-. split; [repeat constructor; assumption |].
    rewrite list_lookup_fmap in Hc.
    destruct (classes (bounding_boxes example) !! i) as [c0 |];
      [| discriminate].
    injection Hc as <-. injection Hk as <-. eauto.
  - intros Hok i nbox Hnbox. rewrite list_lookup_fmap in Hnbox.
    destruct (boxes (bounding_boxes example) !! i) as [box |] eqn:Hbox;
      [| discriminate].
    injection Hnbox as <-. destruct (Hok i box Hbox) as (Hfin & c & Hc & Hin).
    rewrite Forall_lookup in Hshape. specialize (Hshape i box Hbox).
    destruct box as [| b0 [| b1 [| b2 [| b3 [| ? ?]]]]]; try discriminate.
    repeat match goal with
           | H : Forall _ (_ :: _) |- _ => apply Forall_cons in H as [? H]
           end.
    split; [| split; [| discriminate]].
    + exists (NFloat b0), (NFloat b1), (NFloat b2), (NFloat b3).
      repeat split; assumption.
    + exists (NInt c). rewrite list_lookup_fmap, Hc. split; [reflexivity |].
      exists c. auto.
Qed.

Lemma ground_truth_conversion_witness :
  (∃ out,
     convert_format_keras_to_wandb
       (map (map NFloat) (boxes (bounding_boxes demo_example)))
       (map NInt (classes (bounding_boxes demo_example))) None demo_state
     = (Ok out, demo_state))
  ↔ ∀ i box, boxes (bounding_boxes demo_example) !! i = Some box →
      Forall (fun x => is_finite x = true) box ∧
      ∃ c, classes (bounding_boxes demo_example) !! i = Some c ∧
           is_Some (utils_class_mapping demo_state !! c).
Proof.
  apply (ground_truth_conversion demo_libs "val record" demo_state
           demo_example).
  vm_compute. reflexivity.
Defined.
